(** * Event ticketing backend: a shallow embedding of [event_api]

    The development follows the Django application file by file:
    [models.py] (tables and the user manager), [permissions.py] (the two
    permission classes), [serializers.py] (validation and the purchase
    transaction) and [views.py] (the request handlers).

    The database is an explicit state that the handlers thread through;
    exceptions are values of a sum type; [transaction.atomic] is a
    combinator that restores the state when its body raises. *)

From Stdlib Require Import ZArith String List DecimalString Lia.
From stdpp Require Import gmap strings list fin_maps.

Open Scope Z_scope.

(** ** Python integers and their decimal rendering *)

(** Python's [int] is unbounded and is modelled by [Z]; the range of the
    database's integer columns depends on the backend and is not part
    of the model. [str] is [str(n)], as the f-strings of the serializers
    use it. *)
Definition str (z : Z) : string := NilZero.string_of_int (Z.to_int z).

(** ** models.py: rows and tables *)

(** A table maps primary keys to rows; a new row gets the key after the
    largest one in use. *)
Definition next_id {A : Type} (t : gmap nat A) : nat :=
  S (max_list (elements (dom t))).

Record User := mkUser {
  username : string;
  password : string;          (* the salted hash, never the plain text *)
  role : string;
  is_active : bool;
  is_staff : bool;
  is_superuser : bool
}.

Definition ROLE_CHOICES : list string := ["Admin"; "User"]%string.

Record Event := mkEvent {
  name : string;
  date : string;
  total_tickets : Z;
  tickets_sold : Z
}.

Record Ticket := mkTicket {
  user : nat;                 (* foreign key: User *)
  event : nat;                (* foreign key: Event *)
  quantity : Z;
  purchase_date : Z           (* auto_now_add *)
}.

(** The ledger of tickets is only ever appended to and never looked up
    by key, so it is kept as the list of rows in insertion order. *)
Record db := mkDb {
  users : gmap nat User;
  events : gmap nat Event;
  tickets : list Ticket
}.

Definition empty_db : db := mkDb ∅ ∅ [].

Definition set_users (f : gmap nat User → gmap nat User) (st : db) : db :=
  mkDb (f (users st)) (events st) (tickets st).
Definition set_events (f : gmap nat Event → gmap nat Event) (st : db) : db :=
  mkDb (users st) (f (events st)) (tickets st).
Definition set_tickets (f : list Ticket → list Ticket) (st : db) : db :=
  mkDb (users st) (events st) (f (tickets st)).

(** ** Exceptions, and computations over the database *)

(** One entry of a [ValidationError]'s detail: a field's error, named by
    the framework's error code, or a non-field error with the message the
    serializer raised it with. *)
Inductive ErrorDetail :=
| FieldError (field code : string)
| NonFieldError (message : string).

Inductive exn :=
| ValidationError (detail : list ErrorDetail)
| IntegrityError
| DatabaseError
| ValueError (message : string)
| DoesNotExist
| NotAuthenticated
| PermissionDenied
| MethodNotAllowed.

(** A computation reads and writes the database and returns or raises. *)
Definition M (A : Type) : Type := db → (exn + A) * db.

Definition ret {A} (a : A) : M A := fun st => (inr a, st).
Definition raise {A} (e : exn) : M A := fun st => (inl e, st).
Definition bind {A B} (m : M A) (k : A → M B) : M B :=
  fun st => match m st with
            | (inl e, st') => (inl e, st')
            | (inr a, st') => k a st'
            end.
Definition get_db : M db := fun st => (inr st, st).
Definition modify_db (f : db → db) : M unit := fun st => (inr tt, f st).

Declare Scope db_scope.
Delimit Scope db_scope with db.
Notation "x <- c1 ;; c2" := (bind c1 (fun x => c2))
  (at level 100, c1 at next level, right associativity) : db_scope.
Notation "c1 ;;; c2" := (bind c1 (fun _ => c2))
  (at level 100, right associativity) : db_scope.
Open Scope db_scope.

(** [with transaction.atomic(): body]: when the body raises, every write
    it made is rolled back and the exception propagates. *)
Definition transaction_atomic {A} (body : M A) : M A :=
  fun st => match body st with
            | (inl e, _) => (inl e, st)
            | (inr a, st') => (inr a, st')
            end.

(** *** Model managers *)

Module UserTable.

Definition exists_username (n : string) (t : gmap nat User) : bool :=
  existsb (fun r => String.eqb (username r.2) n) (map_to_list t).

(** [user.save()] of a new instance: INSERT; the unique index on
    [username] raises [IntegrityError]. *)
Definition save (u : User) : M (nat * User) :=
  st <- get_db ;;
  if exists_username (username u) (users st) then raise IntegrityError
  else
    let pk := next_id (users st) in
    modify_db (set_users (insert pk u)) ;;;
    ret (pk, u).

End UserTable.

Module EventTable.

(** [Event.objects.get(id=pk)] *)
Definition get (pk : nat) : M (nat * Event) :=
  st <- get_db ;;
  match events st !! pk with
  | Some row => ret (pk, row)
  | None => raise DoesNotExist
  end.

(** [Event.objects.create] with the row's fields *)
Definition create (row : Event) : M (nat * Event) :=
  st <- get_db ;;
  let pk := next_id (events st) in
  modify_db (set_events (insert pk row)) ;;;
  ret (pk, row).

(** [event.save(update_fields=['tickets_sold'])]: UPDATE of that one
    column of the row with the instance's key; Django raises
    [DatabaseError] when no row was affected. A value outside the
    column's range, which the database refuses, is not modelled (see
    [safe_integer]). *)
Definition save_tickets_sold (inst : nat * Event) : M unit :=
  st <- get_db ;;
  match events st !! inst.1 with
  | Some row =>
      modify_db (set_events
        (insert inst.1 (mkEvent (name row) (date row) (total_tickets row)
                                (tickets_sold inst.2))))
  | None => raise DatabaseError
  end.

End EventTable.

Module TicketTable.

(** [Ticket.objects.create(user=.., event=.., quantity=..)];
    [purchase_date] is stamped with the current time. *)
Definition create (now : Z) (u : nat * User) (e : nat * Event) (q : Z)
  : M Ticket :=
  let row := mkTicket u.1 e.1 q now in
  modify_db (set_tickets (fun l => l ++ [row])) ;;;
  ret row.

End TicketTable.

(** *** UserManager *)

Section Hashing.

(** [set_password] stores [make_password(raw)]; the hasher is the
    framework's and stays a parameter. *)
Variable make_password : string → string.

Definition UserManager_create_user (uname pw urole : string)
  : M (nat * User) :=
  if String.eqb uname EmptyString
  then raise (ValueError "Users must have a username")
  else
    let u := mkUser uname (make_password pw) urole true false false in
    UserTable.save u.

End Hashing.

(** ** The request, as the views receive it *)

(** The methods a client may send to a route of [urls.py]. *)
Inductive Method := GET | POST | PUT | PATCH | DELETE.

(** What a serializer field makes of the request's entry for it: the key
    is absent, the value is not of the field's type (or is null), or it
    deserialises to a value. For a text, the value is the text after the
    field has trimmed it. *)
Inductive raw (A : Type) :=
| Missing
| Malformed
| Parsed (a : A).
Arguments Missing {A}.
Arguments Malformed {A}.
Arguments Parsed {A} a.

(** [request.user] is [None] for the anonymous user, else the
    authenticated account with its primary key. *)
Record Request (D : Type) := mkRequest {
  method : Method;
  request_user : option (nat * User);
  data : D
}.
Arguments mkRequest {D}.
Arguments method {D}.
Arguments request_user {D}.
Arguments data {D}.

Definition is_authenticated {D} (r : Request D) : bool :=
  match request_user r with Some _ => true | None => false end.

(** [request.user.role == s]; only read behind [is_authenticated]. *)
Definition role_is {D} (r : Request D) (s : string) : bool :=
  match request_user r with
  | Some u => String.eqb (role u.2) s
  | None => false
  end.

(** ** permissions.py *)

Inductive Permission := AllowAny | IsAuthenticated | IsAdminUser | IsRegularUser.

Definition has_permission {D} (p : Permission) (r : Request D) : bool :=
  match p with
  | AllowAny => true
  | IsAuthenticated => is_authenticated r
  | IsAdminUser =>
      match method r with
      | POST => is_authenticated r && role_is r "Admin"
      | _ => is_authenticated r
      end
  | IsRegularUser => is_authenticated r && role_is r "User"
  end.

(** [APIView.check_permissions]: the first class that refuses ends the
    request, with 401 for an anonymous caller and 403 otherwise. *)
Fixpoint check_permissions {D} (ps : list Permission) (r : Request D)
  : option exn :=
  match ps with
  | [] => None
  | p :: ps' =>
      if has_permission p r then check_permissions ps' r
      else Some (if is_authenticated r then PermissionDenied
                 else NotAuthenticated)
  end.

(** ** Responses *)

(** The JSON bodies the views answer with. *)
#[local] Unset Elimination Schemes.
Inductive json :=
| JStr (s : string)
| JInt (z : Z)
| JErrors (detail : list ErrorDetail)
| JList (items : list json)
| JObj (members : list (string * json)).
#[local] Set Elimination Schemes.

Record Response := mkResponse { status : Z; body : json }.

(** The framework's exception handler, for what a view lets escape. *)
Definition exception_handler (e : exn) : Response :=
  match e with
  | ValidationError d => mkResponse 400 (JErrors d)
  | NotAuthenticated => mkResponse 401 (JObj [("detail", JStr "not_authenticated")])
  | PermissionDenied => mkResponse 403 (JObj [("detail", JStr "permission_denied")])
  | MethodNotAllowed => mkResponse 405 (JObj [("detail", JStr "method_not_allowed")])
  | _ => mkResponse 500 (JObj [])
  end.

(** ** serializers.py *)

(** A serializer field: required or not, with its validators, each
    returning the error code it fails with. The model writes the code
    ['invalid'] for every [Malformed] value; the framework's code for
    null is ['null'], a difference [raw] does not keep, so no statement
    relies on the code of a [Malformed] value. *)
Definition run_field {A} (field : string) (required : bool)
    (validators : list (A → option string)) (r : raw A)
  : list ErrorDetail * option A :=
  match r with
  | Missing => (if required then [FieldError field "required"] else [], None)
  | Malformed => ([FieldError field "invalid"], None)
  | Parsed a =>
      match omap (fun v => v a) validators with
      | [] => ([], Some a)
      | codes => (map (FieldError field) codes, None)
      end
  end.

Definition not_blank (s : string) : option string :=
  if String.eqb s EmptyString then Some "blank"%string else None.
(** [String.length] counts the bytes of the text, the framework its
    characters, which are never more: a text that passes here passes in
    the code. A text of at most [n] characters in more than [n] bytes
    passes in the code only, so statements bound the length where they
    promise an acceptance and not where they describe one. *)
Definition max_length (n : nat) (s : string) : option string :=
  if (n <? String.length s)%nat then Some "max_length"%string else None.
Definition min_value (m : Z) (z : Z) : option string :=
  if z <? m then Some "min_value"%string else None.
Definition choice (cs : list string) (s : string) : option string :=
  if existsb (String.eqb s) cs then None else Some "invalid_choice"%string.
Definition unique_username (t : gmap nat User) (s : string) : option string :=
  if UserTable.exists_username s t then Some "unique"%string else None.

(** *** UserRegisterSerializer *)

Record RegisterData := mkRegisterData {
  reg_username : raw string;
  reg_password : raw string;
  reg_role : raw string
}.

(** [validated_data]; [role] is absent when the request did not send it. *)
Record RegisterValidated := mkRegisterValidated {
  v_username : string;
  v_password : string;
  v_role : option string
}.

(** [is_valid(raise_exception=True)] for
    [fields = ['username', 'password', 'role']]: [username] carries the
    model's length bound and uniqueness, [role] the model's choices and,
    having a default, is optional. *)
Definition UserRegisterSerializer_is_valid (d : RegisterData)
  : M RegisterValidated :=
  st <- get_db ;;
  let u := run_field "username" true
             [not_blank; max_length 150; unique_username (users st)]
             (reg_username d) in
  let p := run_field "password" true [not_blank] (reg_password d) in
  let r := run_field "role" false [choice ROLE_CHOICES] (reg_role d) in
  match u.1 ++ p.1 ++ r.1, u.2, p.2 with
  | [], Some uname, Some pw => ret (mkRegisterValidated uname pw r.2)
  | errors, _, _ => raise (ValidationError errors)
  end.

Section Register.
Variable make_password : string → string.

Definition UserRegisterSerializer_create (v : RegisterValidated)
  : M (nat * User) :=
  UserManager_create_user make_password
    (v_username v) (v_password v) (default "User"%string (v_role v)).

End Register.

(** *** EventSerializer *)

Record EventData := mkEventData {
  ev_name : raw string;
  ev_date : raw string;
  ev_total_tickets : raw Z;
  ev_tickets_sold : raw Z
}.

Record EventValidated := mkEventValidated {
  v_name : string;
  v_date : string;
  v_total_tickets : Z;
  v_tickets_sold : option Z
}.

(** [fields = '__all__']: every column of [Event] but the key is an
    input; [tickets_sold] has a default and is therefore optional. The
    integer columns carry no validator of the application's; the range
    validators of the database backend are not modelled (see
    [safe_integer]). *)
Definition EventSerializer_is_valid (d : EventData) : M EventValidated :=
  let n := run_field "name" true [not_blank; max_length 255] (ev_name d) in
  let dt := run_field "date" true [] (ev_date d) in
  let tt := run_field "total_tickets" true [] (ev_total_tickets d) in
  let ts := run_field "tickets_sold" false [] (ev_tickets_sold d) in
  match n.1 ++ dt.1 ++ tt.1 ++ ts.1, n.2, dt.2, tt.2 with
  | [], Some n', Some dt', Some tt' => ret (mkEventValidated n' dt' tt' ts.2)
  | errors, _, _, _ => raise (ValidationError errors)
  end.

(** [ModelSerializer.create]: [Event.objects.create] with the validated
    fields; the column default fills in an absent [tickets_sold]. *)
Definition EventSerializer_create (v : EventValidated) : M (nat * Event) :=
  EventTable.create
    (mkEvent (v_name v) (v_date v) (v_total_tickets v)
             (default 0 (v_tickets_sold v))).

(** *** TicketPurchaseSerializer *)

Record PurchaseData := mkPurchaseData { pd_quantity : raw Z }.

(** [self.context] *)
Record PurchaseContext := mkPurchaseContext {
  ctx_user : option (nat * User);
  ctx_event : nat * Event
}.

Definition tickets_left_message (e : Event) : string :=
  "Only " +:+ str (total_tickets e - tickets_sold e) +:+ " tickets left.".

Definition TicketPurchaseSerializer_validate (ctx : PurchaseContext) (q : Z)
  : M Z :=
  let event := ctx_event ctx in
  if tickets_sold event.2 + q >? total_tickets event.2
  then raise (ValidationError [NonFieldError (tickets_left_message event.2)])
  else ret q.

(** [quantity = IntegerField(min_value=1)], then [validate]. *)
Definition TicketPurchaseSerializer_is_valid (ctx : PurchaseContext)
    (d : PurchaseData) : M Z :=
  let q := run_field "quantity" true [min_value 1] (pd_quantity d) in
  match q.1, q.2 with
  | [], Some q' => TicketPurchaseSerializer_validate ctx q'
  | errors, _ => raise (ValidationError errors)
  end.

Definition add_tickets_sold (q : Z) (inst : nat * Event) : nat * Event :=
  (inst.1, mkEvent (name inst.2) (date inst.2) (total_tickets inst.2)
                   (tickets_sold inst.2 + q)).

(** [create]: inside the transaction the event is read again and
    checked; then the counter is raised -- the statement
    [event.tickets_sold += quantity] stands twice in the source -- and
    saved, and the ticket row is inserted. Assigning the anonymous user
    to [Ticket.user] raises [ValueError]. *)
Definition TicketPurchaseSerializer_create (now : Z) (ctx : PurchaseContext)
    (q : Z) : M Ticket :=
  let user := ctx_user ctx in
  let event := ctx_event ctx in
  transaction_atomic (
    event <- EventTable.get event.1 ;;
    if tickets_sold event.2 + q >? total_tickets event.2
    then raise (ValidationError [NonFieldError (tickets_left_message event.2)])
    else
      let event := add_tickets_sold q event in
      let event := add_tickets_sold q event in
      EventTable.save_tickets_sold event ;;;
      match user with
      | Some u => TicketTable.create now u event q
      | None => raise (ValueError "Ticket.user must be a User instance")
      end).

(** ** views.py *)

(** [try: body except ...: handler]; [handler] returns [None] for an
    exception the [except] clauses do not name. *)
Definition try_except {A} (body : M A) (handler : exn → option (M A)) : M A :=
  fun st => match body st with
            | (inl e, st') =>
                match handler e with
                | Some h => h st'
                | None => (inl e, st')
                end
            | r => r
            end.

Definition message (s : string) : json := JObj [("message", JStr s)].
Definition error (j : json) : json := JObj [("error", j)].

(** [str(e)] of the exceptions a view may report. *)
Definition exn_text (e : exn) : string :=
  match e with
  | ValueError m => m
  | DoesNotExist => "matching query does not exist"
  | DatabaseError => "Save with update_fields did not affect any rows."
  | _ => EmptyString
  end.

Section Views.
Variable make_password : string → string.

(** [RegisterView]: [permission_classes = [AllowAny]] *)
Definition RegisterView_permission_classes : list Permission := [AllowAny].

Definition RegisterView_create (req : Request RegisterData) : M Response :=
  try_except
    (v <- UserRegisterSerializer_is_valid (data req) ;;
     UserRegisterSerializer_create make_password v ;;;
     ret (mkResponse 200 (message "Registered successfully")))
    (fun e => Some (ret
       match e with
       | ValidationError d => mkResponse 400 (error (JErrors d))
       | IntegrityError => mkResponse 400 (error (JStr "Username already exists"))
       | _ => mkResponse 500 (JObj [("error", JStr "Something went wrong");
                                    ("details", JStr (exn_text e))])
       end)).

(** [EventAPIView]: [permission_classes = [IsAuthenticated, IsAdminUser]] *)
Definition EventAPIView_permission_classes : list Permission :=
  [IsAuthenticated; IsAdminUser].

Definition event_json (r : nat * Event) : json :=
  JObj [("id", JInt (Z.of_nat r.1)); ("name", JStr (name r.2));
        ("date", JStr (date r.2)); ("total_tickets", JInt (total_tickets r.2));
        ("tickets_sold", JInt (tickets_sold r.2))].

(** [queryset = Event.objects.all()] carries no ordering: the order of
    the entries is the table's and is not fixed by the model. *)
Definition EventAPIView_list (req : Request EventData) : M Response :=
  st <- get_db ;;
  ret (mkResponse 200 (JList (map event_json (map_to_list (events st))))).

Definition EventAPIView_create (req : Request EventData) : M Response :=
  v <- EventSerializer_is_valid (data req) ;;
  EventSerializer_create v ;;;
  ret (mkResponse 201 (message "Event created successfully")).

(** [TicketPurchaseAPIView]:
    [permission_classes = [IsAuthenticated, IsRegularUser]] *)
Definition TicketPurchaseAPIView_permission_classes : list Permission :=
  [IsAuthenticated; IsRegularUser].

Definition TicketPurchaseAPIView_create (id : nat) (now : Z)
    (req : Request PurchaseData) : M Response :=
  found <- try_except
             (e <- EventTable.get id ;; ret (inr e))
             (fun e => match e with
                       | DoesNotExist =>
                           Some (ret (inl (mkResponse 404
                                   (error (JStr "Event not found.")))))
                       | _ => None
                       end) ;;
  match found with
  | inl response => ret response
  | inr event =>
      let ctx := mkPurchaseContext (request_user req) event in
      q <- TicketPurchaseSerializer_is_valid ctx (data req) ;;
      ticket <- TicketPurchaseSerializer_create now ctx q ;;
      ret (mkResponse 201
             (JObj [("message", JStr "Ticket purchased successfully");
                    ("ticket", JObj [("quantity", JInt (quantity ticket))])]))
  end.

(** *** Dispatch *)

(** [APIView.dispatch]: permissions first, then the handler of the
    request's method; an exception that escapes the handler becomes the
    framework's error response, the database staying as the handler left
    it. *)
Definition dispatch {D} (permission_classes : list Permission)
    (handlers : Method → option (Request D → M Response))
    (req : Request D) (st : db) : Response * db :=
  match check_permissions permission_classes req with
  | Some e => (exception_handler e, st)
  | None =>
      match handlers (method req) with
      | None => (exception_handler MethodNotAllowed, st)
      | Some h =>
          match h req st with
          | (inr response, st') => (response, st')
          | (inl e, st') => (exception_handler e, st')
          end
      end
  end.

(** urls.py: the three routes of the core. *)
Inductive call :=
| register (req : Request RegisterData)
| events_ (req : Request EventData)
| ticket_purchase (id : nat) (now : Z) (req : Request PurchaseData).

Definition handle (c : call) : db → Response * db :=
  match c with
  | register req =>
      dispatch RegisterView_permission_classes
        (fun m => match m with POST => Some RegisterView_create | _ => None end)
        req
  | events_ req =>
      dispatch EventAPIView_permission_classes
        (fun m => match m with
                  | GET => Some EventAPIView_list
                  | POST => Some EventAPIView_create
                  | _ => None
                  end)
        req
  | ticket_purchase id now req =>
      dispatch TicketPurchaseAPIView_permission_classes
        (fun m => match m with
                  | POST => Some (TicketPurchaseAPIView_create id now)
                  | _ => None
                  end)
        req
  end.

(** A sequence of requests served one after the other, with the
    responses in order. *)
Fixpoint run (cs : list call) (st : db) : list Response * db :=
  match cs with
  | [] => ([], st)
  | c :: cs' =>
      let r := handle c st in
      let rs := run cs' r.2 in
      (r.1 :: rs.1, rs.2)
  end.

End Views.

(** ** The rest of the application *)

(** *** models.py: [UserManager.create_superuser] *)

(** [user.save()] of an instance that has a key: the row under the key
    is written with the instance's fields. *)
Definition User_save (inst : nat * User) : M unit :=
  modify_db (set_users (insert inst.1 inst.2)).

Section Superuser.
Variable make_password : string → string.

Definition UserManager_create_superuser (uname pw : string)
  : M (nat * User) :=
  user <- UserManager_create_user make_password uname pw "Admin" ;;
  let user :=
    (user.1, mkUser (username user.2) (password user.2) (role user.2)
                    (is_active user.2) true true) in
  User_save user ;;;
  ret user.

End Superuser.

(** *** serializers.py: [UserLoginSerializer] *)

Record LoginData := mkLoginData {
  login_username : raw string;
  login_password : raw string
}.

Section Login.

(** [django.contrib.auth.authenticate] and [RefreshToken.for_user] are
    the framework's and the token library's: parameters, free to read
    and write the database and to raise. [for_user] returns the refresh
    token and its access token as text. *)
Variable authenticate : string → string → M (option (nat * User)).
Variable for_user : nat * User → M (string * string).

(** [validate] returns the authenticated user, not the data. *)
Definition UserLoginSerializer_validate (uname pw : string)
  : M (nat * User) :=
  if String.eqb uname EmptyString || String.eqb pw EmptyString
  then raise (ValidationError
                [NonFieldError "Both username and password are required"])
  else
    user <- authenticate uname pw ;;
    match user with
    | None => raise (ValidationError [NonFieldError "Invalid credentials"])
    | Some user =>
        if negb (is_active user.2)
        then raise (ValidationError
                      [NonFieldError "User account is disabled"])
        else ret user
    end.

(** [username = CharField()], [password = CharField(write_only=True)],
    then [validate]. *)
Definition UserLoginSerializer_is_valid (d : LoginData) : M (nat * User) :=
  let u := run_field "username" true [not_blank] (login_username d) in
  let p := run_field "password" true [not_blank] (login_password d) in
  match u.1 ++ p.1, u.2, p.2 with
  | [], Some uname, Some pw => UserLoginSerializer_validate uname pw
  | errors, _, _ => raise (ValidationError errors)
  end.

(** *** views.py: [LoginView] *)

Definition LoginView_permission_classes : list Permission := [AllowAny].

Definition LoginView_post (req : Request LoginData) : M Response :=
  try_except
    (user <- UserLoginSerializer_is_valid (data req) ;;
     refresh <- for_user user ;;
     ret (mkResponse 200
            (JObj [("message", JStr "Login successful");
                   ("refresh", JStr refresh.1);
                   ("access", JStr refresh.2)])))
    (fun e => Some (ret
       match e with
       | ValidationError d => mkResponse 400 (error (JErrors d))
       | DoesNotExist => mkResponse 404 (error (JStr "User not found"))
       | _ => mkResponse 500 (JObj [("error", JStr "Something went wrong");
                                    ("details", JStr (exn_text e))])
       end)).

(** [path('login/', LoginView.as_view())] *)
Definition login (req : Request LoginData) : db → Response * db :=
  dispatch LoginView_permission_classes
    (fun m => match m with POST => Some LoginView_post | _ => None end)
    req.

End Login.

(** * Specification vocabulary *)

(** ** The ledger *)

(** The sum of [quantity] over the tickets of event [id]. *)
Definition committed (id : nat) (l : list Ticket) : Z :=
  foldr (fun t acc => if Nat.eqb (event t) id then quantity t + acc else acc)
        0 l.

(** ** Outcomes of the handlers *)

(** The row a successful purchase of [q] leaves for the event. *)
Definition purchased (q : Z) (row : Event) : Event :=
  mkEvent (name row) (date row) (total_tickets row) (tickets_sold row + q + q).

(** The outcome of [TicketPurchaseAPIView.create], case by case. *)
Inductive purchase_outcome (id : nat) (now : Z) (req : Request PurchaseData)
    (st : db) : (exn + Response) * db → Prop :=
| purchase_not_found :
    events st !! id = None →
    purchase_outcome id now req st
      (inr (mkResponse 404 (error (JStr "Event not found."))), st)
| purchase_invalid row errors :
    events st !! id = Some row →
    (run_field "quantity" true [min_value 1] (pd_quantity (data req))).1
      = errors →
    errors ≠ [] →
    purchase_outcome id now req st (inl (ValidationError errors), st)
| purchase_insufficient row q :
    events st !! id = Some row →
    pd_quantity (data req) = Parsed q →
    1 ≤ q →
    tickets_sold row + q > total_tickets row →
    purchase_outcome id now req st
      (inl (ValidationError [NonFieldError (tickets_left_message row)]), st)
| purchase_anonymous row q :
    events st !! id = Some row →
    pd_quantity (data req) = Parsed q →
    1 ≤ q →
    tickets_sold row + q ≤ total_tickets row →
    request_user req = None →
    purchase_outcome id now req st
      (inl (ValueError "Ticket.user must be a User instance"), st)
| purchase_committed row q u :
    events st !! id = Some row →
    pd_quantity (data req) = Parsed q →
    1 ≤ q →
    tickets_sold row + q ≤ total_tickets row →
    request_user req = Some u →
    purchase_outcome id now req st
      (inr (mkResponse 201
              (JObj [("message", JStr "Ticket purchased successfully");
                     ("ticket", JObj [("quantity", JInt q)])])),
       mkDb (users st) (<[id := purchased q row]> (events st))
            (tickets st ++ [mkTicket u.1 id q now])).

(** What the model of [EventSerializer] accepts: a non-blank name of at
    most 255 bytes, a date, an integer [total_tickets], and
    [tickets_sold] absent or an integer. *)
Definition event_valid (d : EventData) (v : EventValidated) : Prop :=
  ev_name d = Parsed (v_name v) ∧ v_name v ≠ EmptyString ∧
  (String.length (v_name v) ≤ 255)%nat ∧
  ev_date d = Parsed (v_date v) ∧
  ev_total_tickets d = Parsed (v_total_tickets v) ∧
  match v_tickets_sold v with
  | Some s => ev_tickets_sold d = Parsed s
  | None => ev_tickets_sold d = Missing
  end.

(** What the model of [UserRegisterSerializer] accepts: a non-blank
    username of at most 150 bytes that no account has, a non-blank
    password, and [role] absent or one of the model's choices. *)
Definition register_valid (t : gmap nat User) (d : RegisterData)
    (v : RegisterValidated) : Prop :=
  reg_username d = Parsed (v_username v) ∧ v_username v ≠ EmptyString ∧
  (String.length (v_username v) ≤ 150)%nat ∧
  UserTable.exists_username (v_username v) t = false ∧
  reg_password d = Parsed (v_password v) ∧ v_password v ≠ EmptyString ∧
  match v_role v with
  | Some r => reg_role d = Parsed r ∧ (r = "Admin"%string ∨ r = "User"%string)
  | None => reg_role d = Missing
  end.

(** The account [create_user] stores for validated data. *)
Definition registered (make_password : string → string)
    (v : RegisterValidated) : User :=
  mkUser (v_username v) (make_password (v_password v))
         (default "User"%string (v_role v)) true false false.

(** What serving one request does: nothing, or the one write of its
    route. A [201] is answered only together with the write. *)
Inductive effect (mp : string → string) (st : db)
  : call → Response → db → Prop :=
| effect_none c r :
    match c with register _ => status r ≠ 200 | _ => status r ≠ 201 end →
    effect mp st c r st
| effect_registered req v :
    register_valid (users st) (data req) v →
    effect mp st (register req)
      (mkResponse 200 (message "Registered successfully"))
      (mkDb (<[next_id (users st) := registered mp v]> (users st))
            (events st) (tickets st))
| effect_created req v :
    method req = POST →
    event_valid (data req) v →
    effect mp st (events_ req)
      (mkResponse 201 (message "Event created successfully"))
      (mkDb (users st)
            (<[next_id (events st) :=
                 mkEvent (v_name v) (v_date v) (v_total_tickets v)
                         (default 0 (v_tickets_sold v))]> (events st))
            (tickets st))
| effect_purchased id now req row q u :
    method req = POST →
    request_user req = Some u →
    role u.2 = "User"%string →
    events st !! id = Some row →
    pd_quantity (data req) = Parsed q →
    1 ≤ q →
    tickets_sold row + q ≤ total_tickets row →
    effect mp st (ticket_purchase id now req)
      (mkResponse 201
         (JObj [("message", JStr "Ticket purchased successfully");
                ("ticket", JObj [("quantity", JInt q)])]))
      (mkDb (users st) (<[id := purchased q row]> (events st))
            (tickets st ++ [mkTicket u.1 id q now])).

(** ** Sample data for the concrete runs *)

Definition sample_hasher (s : string) : string := "pbkdf2_sha256$" +:+ s.
Definition root : nat * User :=
  (1%nat, mkUser "root" (sample_hasher "r00t") "Admin" true false false).
Definition alice : nat * User :=
  (2%nat, mkUser "alice" (sample_hasher "wonder") "User" true false false).

(** [POST events/] by [root] *)
Definition post_event (total sold : raw Z) : call :=
  events_ (mkRequest POST (Some root)
             (mkEventData (Parsed "Gig") (Parsed "2025-06-01") total sold)).

(** [POST events/<id>/purchase/] by [alice] at time [now] *)
Definition post_purchase (id : nat) (now q : Z) : call :=
  ticket_purchase id now (mkRequest POST (Some alice) (mkPurchaseData (Parsed q))).

(** A database holding one event with [total] tickets, none sold. *)
Definition one_event (total : Z) : db :=
  mkDb ∅ {[ 1%nat := mkEvent "Gig" "2025-06-01" total 0 ]} [].

(** The number of 201 responses. *)
Definition successes (rs : list Response) : nat :=
  length (List.filter (fun r => status r =? 201) rs).

(** ** What a request asks for *)

(** The [tickets_sold] a creation request asks for: the field's value,
    or the column default. *)
Definition requested_sold (d : EventData) : Z :=
  match ev_tickets_sold d with Parsed s => s | _ => 0 end.


(** ** Invariants of the database *)

(** The bounds of an event's counter. *)
Definition sold_within (st : db) : Prop :=
  ∀ id row, events st !! id = Some row →
    0 ≤ tickets_sold row ≤ total_tickets row.

(** The lower bound alone. *)
Definition sold_nonneg (st : db) : Prop :=
  ∀ id row, events st !! id = Some row → 0 ≤ tickets_sold row.

(** A creation request that asks for a counter within its own bounds. *)
Definition creation_in_bounds (c : call) : Prop :=
  match c with
  | events_ req =>
      ∀ t, ev_total_tickets (data req) = Parsed t →
        0 ≤ requested_sold (data req) ≤ t
  | _ => True
  end.

(** The response to a purchase request is not a success. *)
Definition no_sale (c : call) (r : Response) : Prop :=
  match c with
  | ticket_purchase _ _ _ => status r ≠ 201
  | _ => True
  end.

(** The counter of every event is the sum of its committed quantities. *)
Definition conserved (st : db) : Prop :=
  ∀ id row, events st !! id = Some row →
    tickets_sold row = committed id (tickets st).

(** The sum of an event's committed quantities is at most its counter. *)
Definition covered (st : db) : Prop :=
  ∀ id row, events st !! id = Some row →
    committed id (tickets st) ≤ tickets_sold row.

(** Every ticket's foreign key names an event of the table. *)
Definition references_ok (st : db) : Prop :=
  ∀ t, t ∈ tickets st → is_Some (events st !! event t).

(** A creation request that leaves the counter at its default. *)
Definition creation_from_zero (c : call) : Prop :=
  match c with
  | events_ req => requested_sold (data req) = 0
  | _ => True
  end.

(** The quantity a request added to the purchases of event [id]: the
    requested quantity of a purchase for [id] answered 201. *)
Definition sale (id : nat) (c : call) (r : Response) : Z :=
  match c with
  | ticket_purchase id' _ req =>
      if Nat.eqb id' id && (status r =? 201)
      then match pd_quantity (data req) with Parsed q => q | _ => 0 end
      else 0
  | _ => 0
  end.

(** The same along a sequence of requests and their responses. *)
Fixpoint sales (id : nat) (cs : list call) (rs : list Response) : Z :=
  match cs, rs with
  | c :: cs', r :: rs' => sale id c r + sales id cs' rs'
  | _, _ => 0
  end.

(** ** Integers every database holds *)

(** The range validators that the [ModelSerializer] gives an integer
    column, and the failure of a write whose value has left the column,
    depend on the database backend, which is not in the source; they
    are not part of the model. Statements that promise an acceptance
    restrict themselves to the integers that every backend of the
    framework validates and stores. *)
Definition safe_integer (z : Z) : Prop := -2147483648 ≤ z ≤ 2147483647.

(** ** Texts every field accepts *)

(** A text field of the framework also refuses a text that holds the
    NUL character, a check that is not part of the model. Statements
    that promise an acceptance restrict themselves to texts without it,
    and bound the length of a text by the bytes of its encoding, which
    are at least as many as its characters. *)
Fixpoint nul_free (s : string) : bool :=
  match s with
  | EmptyString => true
  | String c s' => negb (Ascii.eqb c Ascii.zero) && nul_free s'
  end.

(** ** What requests keep *)

(** Every event of [st] is still there in [st'], with its name, date
    and [total_tickets], and with a counter that is no smaller. *)
Definition events_kept (st st' : db) : Prop :=
  ∀ id row, events st !! id = Some row →
    ∃ row', events st' !! id = Some row' ∧
      name row' = name row ∧ date row' = date row ∧
      total_tickets row' = total_tickets row ∧
      tickets_sold row ≤ tickets_sold row'.

(** Every account of [st] is still there in [st'], unchanged. *)
Definition accounts_kept (st st' : db) : Prop :=
  ∀ pk u, users st !! pk = Some u → users st' !! pk = Some u.

(** No two accounts share a username. *)
Definition usernames_unique (st : db) : Prop :=
  ∀ i j u v, users st !! i = Some u → users st !! j = Some v →
    username u = username v → i = j.

(** Every ticket has a quantity of at least one. *)
Definition quantities_positive (st : db) : Prop :=
  ∀ t, t ∈ tickets st → 1 ≤ quantity t.

(** A response of the permission check: 401 or 403. *)
Definition denied (r : Response) : Prop := status r = 401 ∨ status r = 403.

(** ** Sample collaborators for the concrete logins *)

(** An authentication that looks the account up by name and compares
    the stored hash. *)
Definition sample_authenticate (uname pw : string)
  : M (option (nat * User)) :=
  st <- get_db ;;
  ret (List.find
         (fun r => String.eqb (username r.2) uname
                   && String.eqb (password r.2) (sample_hasher pw))
         (map_to_list (users st))).

Definition sample_for_user (u : nat * User) : M (string * string) :=
  ret ("refresh." +:+ username u.2, "access." +:+ username u.2).

(** A database holding the account [alice], and one holding her
    account disabled. *)
Definition with_alice : db := mkDb {[ alice.1 := alice.2 ]} ∅ [].
Definition with_alice_disabled : db :=
  mkDb {[ 2%nat := mkUser "alice" (sample_hasher "wonder") "User"
                          false false false ]} ∅ [].

(** * Properties *)

(** ** Tables *)

Lemma next_id_fresh {A} (t : gmap nat A) : t !! next_id t = None.
Proof.
  destruct (t !! next_id t) as [a|] eqn:E; [exfalso | reflexivity].
  assert (next_id t ∈ elements (dom t)) as Hin.
  { apply elem_of_elements, elem_of_dom. eauto. }
  apply max_list_elem_of_le in Hin. unfold next_id in Hin. lia.
Qed.

Lemma next_id_other {A} (t : gmap nat A) (pk : nat) (a : A) :
  t !! pk = Some a → pk ≠ next_id t.
Proof. intros H ->. rewrite next_id_fresh in H. discriminate. Qed.

(** ** The sum of the committed quantities of an event *)

Lemma committed_app id l1 l2 :
  committed id (l1 ++ l2) = committed id l1 + committed id l2.
Proof.
  induction l1 as [|t l1 IH]; simpl; [reflexivity|].
  rewrite IH. destruct (Nat.eqb (event t) id); lia.
Qed.

Lemma committed_snoc id l t :
  committed id (l ++ [t]) =
  committed id l + (if Nat.eqb (event t) id then quantity t else 0).
Proof.
  rewrite committed_app. simpl. destruct (Nat.eqb (event t) id); lia.
Qed.

(** ** What each handler does to the database *)

Lemma run_field_quantity (r : raw Z) :
  match run_field "quantity" true [min_value 1] r with
  | ([], Some q) => r = Parsed q ∧ 1 ≤ q
  | ([], None) => False
  | (_ :: _, _) => True
  end.
Proof.
  destruct r as [| |q]; simpl; trivial.
  unfold min_value. destruct (Z.ltb_spec q 1); simpl; [trivial|].
  split; [reflexivity | lia].
Qed.

Lemma TicketPurchaseAPIView_create_outcome id now req st :
  purchase_outcome id now req st (TicketPurchaseAPIView_create id now req st).
Proof.
  cbv beta iota zeta delta [TicketPurchaseAPIView_create bind try_except
    EventTable.get get_db ret raise].
  destruct (events st !! id) as [row|] eqn:Hrow;
    [| by apply purchase_not_found].
  cbv beta iota zeta delta [TicketPurchaseSerializer_is_valid ctx_event].
  pose proof (run_field_quantity (pd_quantity (data req))) as Hq.
  destruct (run_field "quantity" true [min_value 1] (pd_quantity (data req)))
    as [errs oq] eqn:Hrf.
  destruct errs as [|e errs]; cbn [fst snd].
  - destruct oq as [q|]; [| contradiction]. destruct Hq as [Hq1 Hq2].
    cbv beta iota zeta delta [TicketPurchaseSerializer_validate raise ret
      ctx_event snd].
    destruct (Z.gtb_spec (tickets_sold row + q) (total_tickets row)) as [Hgt|Hle].
    + eapply purchase_insufficient; eauto. lia.
    + cbv beta iota zeta delta [TicketPurchaseSerializer_create
        transaction_atomic bind EventTable.get EventTable.save_tickets_sold
        TicketTable.create get_db modify_db ret raise ctx_event ctx_user
        add_tickets_sold fst snd].
      rewrite Hrow.
      destruct (Z.gtb_spec (tickets_sold row + q) (total_tickets row)) as [Hgt|_];
        [lia|]. cbv beta iota. rewrite Hrow.
      destruct (request_user req) as [u|] eqn:Hu; cbv beta iota.
      * unfold set_events, set_tickets, purchased.
        cbn [tickets_sold name date total_tickets users events tickets].
        eapply purchase_committed; eauto.
      * eapply purchase_anonymous; eauto.
  - eapply purchase_invalid; eauto. rewrite Hrf. reflexivity.
Qed.

Lemma run_field_no_validators {A} f req (r : raw A) :
  run_field f req [] r =
  match r with
  | Missing => (if req then [FieldError f "required"] else [], None)
  | Malformed => ([FieldError f "invalid"], None)
  | Parsed a => ([], Some a)
  end.
Proof. destruct r; reflexivity. Qed.

Lemma run_field_name (r : raw string) :
  match run_field "name" true [not_blank; max_length 255] r with
  | ([], Some n) => r = Parsed n ∧ n ≠ EmptyString ∧ (String.length n ≤ 255)%nat
  | ([], None) => False
  | (_ :: _, _) =>
      ∀ n, r = Parsed n → n = EmptyString ∨ (255 < String.length n)%nat
  end.
Proof.
  destruct r as [| |n]; cbn [run_field omap list_omap]; try discriminate.
  unfold not_blank, max_length.
  destruct (String.eqb_spec n EmptyString); destruct (Nat.ltb_spec 255 (String.length n));
    cbn; intros; simplify_eq; auto.
Qed.

Lemma EventSerializer_is_valid_inv d st r st' :
  EventSerializer_is_valid d st = (r, st') →
  st' = st ∧
  match r with
  | inr v => event_valid d v
  | inl e =>
      ∃ errors, e = ValidationError errors ∧ errors ≠ [] ∧
        errors =
          (run_field "name" true [not_blank; max_length 255] (ev_name d)).1 ++
          (run_field "date" true [] (ev_date d)).1 ++
          (run_field "total_tickets" true [] (ev_total_tickets d)).1 ++
          (run_field "tickets_sold" false [] (ev_tickets_sold d)).1
  end.
Proof.
  unfold EventSerializer_is_valid.
  pose proof (run_field_name (ev_name d)) as Hn.
  destruct (run_field "name" true [not_blank; max_length 255] (ev_name d))
    as [en on].
  rewrite !run_field_no_validators. unfold event_valid.
  destruct en as [|e en]; cbn [fst snd app].
  - destruct on as [n|]; [| contradiction]. destruct Hn as (Hn1 & Hn2 & Hn3).
    destruct (ev_date d), (ev_total_tickets d), (ev_tickets_sold d);
      cbn; unfold raise, ret; intros [= <- <-]; (split; [reflexivity|]);
      cbn; eauto 10.
  - unfold raise. intros [= <- <-]. split; [reflexivity|]. eauto.
Qed.

Lemma EventSerializer_is_valid_complete d v st :
  event_valid d v → EventSerializer_is_valid d st = (inr v, st).
Proof.
  destruct v as [n dt tt ts]. unfold event_valid. cbn.
  intros (Hn & Hnb & Hlen & Hd & Ht & Hs).
  unfold EventSerializer_is_valid. rewrite Hn, Hd, Ht.
  rewrite !run_field_no_validators.
  cbn [run_field omap list_omap]. unfold not_blank, max_length.
  destruct (String.eqb_spec n EmptyString); [contradiction|].
  destruct (Nat.ltb_spec 255 (String.length n)); [lia|].
  destruct ts as [s|]; rewrite Hs; reflexivity.
Qed.

(** The outcome of [EventAPIView.create]: a validation error and no
    write, or the insertion of the validated row under a new key. *)
Lemma EventAPIView_create_outcome req st :
  (∃ errors,
      EventAPIView_create req st = (inl (ValidationError errors), st) ∧
      errors ≠ [] ∧
      errors =
        (run_field "name" true [not_blank; max_length 255]
                   (ev_name (data req))).1 ++
        (run_field "date" true [] (ev_date (data req))).1 ++
        (run_field "total_tickets" true [] (ev_total_tickets (data req))).1 ++
        (run_field "tickets_sold" false [] (ev_tickets_sold (data req))).1) ∨
  (∃ v, event_valid (data req) v ∧
      EventAPIView_create req st =
        (inr (mkResponse 201 (message "Event created successfully")),
         mkDb (users st)
              (<[next_id (events st) :=
                   mkEvent (v_name v) (v_date v) (v_total_tickets v)
                           (default 0 (v_tickets_sold v))]> (events st))
              (tickets st))).
Proof.
  destruct (EventSerializer_is_valid (data req) st) as [r st'] eqn:Hv.
  pose proof (EventSerializer_is_valid_inv _ _ _ _ Hv) as [-> Hr].
  unfold EventAPIView_create, bind. rewrite Hv.
  destruct r as [e|v].
  - left. destruct Hr as (errors & -> & Hne & Herr). eauto.
  - right. exists v. split; [assumption|]. reflexivity.
Qed.

Lemma run_field_username t (r : raw string) :
  match run_field "username" true
          [not_blank; max_length 150; unique_username t] r with
  | ([], Some n) =>
      r = Parsed n ∧ n ≠ EmptyString ∧ (String.length n ≤ 150)%nat ∧
      UserTable.exists_username n t = false
  | ([], None) => False
  | (_ :: _, _) => True
  end.
Proof.
  destruct r as [| |n]; cbn [run_field omap list_omap]; try exact I.
  unfold not_blank, max_length, unique_username.
  destruct (String.eqb_spec n EmptyString); destruct (Nat.ltb_spec 150 (String.length n));
    destruct (UserTable.exists_username n t) eqn:E; cbn; auto.
Qed.

Lemma run_field_password (r : raw string) :
  match run_field "password" true [not_blank] r with
  | ([], Some p) => r = Parsed p ∧ p ≠ EmptyString
  | ([], None) => False
  | (_ :: _, _) => True
  end.
Proof.
  destruct r as [| |p]; cbn [run_field omap list_omap]; try exact I.
  unfold not_blank. destruct (String.eqb_spec p EmptyString); cbn; auto.
Qed.

Lemma run_field_role (r : raw string) :
  match run_field "role" false [choice ROLE_CHOICES] r with
  | ([], Some c) => r = Parsed c ∧ (c = "Admin"%string ∨ c = "User"%string)
  | ([], None) => r = Missing
  | (_ :: _, _) => True
  end.
Proof.
  destruct r as [| |c]; cbn [run_field omap list_omap]; try done.
  unfold choice, ROLE_CHOICES. cbn [existsb].
  destruct (String.eqb_spec c "Admin"); [cbn; auto|].
  destruct (String.eqb_spec c "User"); cbn; auto.
Qed.

Lemma UserRegisterSerializer_is_valid_inv d st r st' :
  UserRegisterSerializer_is_valid d st = (r, st') →
  st' = st ∧
  match r with
  | inr v => register_valid (users st) d v
  | inl e => ∃ errors, e = ValidationError errors ∧ errors ≠ []
  end.
Proof.
  unfold UserRegisterSerializer_is_valid, bind, get_db.
  pose proof (run_field_username (users st) (reg_username d)) as Hu.
  pose proof (run_field_password (reg_password d)) as Hp.
  pose proof (run_field_role (reg_role d)) as Hr.
  destruct (run_field "username" _ _ _) as [eu ou].
  destruct (run_field "password" _ _ _) as [ep op].
  destruct (run_field "role" _ _ _) as [er or].
  unfold register_valid, raise, ret. cbn [fst snd].
  destruct eu as [|? eu]; cbn [app].
  - destruct ou as [n|]; [| contradiction]. destruct ep as [|? ep]; cbn [app].
    + destruct op as [p|]; [| contradiction]. destruct er as [|? er].
      * intros [= <- <-]. split; [reflexivity|]. cbn.
        destruct Hu as (? & ? & ? & ?), Hp as (? & ?).
        destruct or; intuition.
      * intros [= <- <-]. split; [reflexivity|]. eauto.
    + intros [= <- <-]. split; [reflexivity|]. eauto.
  - intros [= <- <-]. split; [reflexivity|]. eauto.
Qed.

Lemma UserRegisterSerializer_is_valid_complete d v st :
  register_valid (users st) d v →
  UserRegisterSerializer_is_valid d st = (inr v, st).
Proof.
  destruct v as [n p r]. unfold register_valid. cbn.
  intros (Hn & Hnb & Hlen & Hfree & Hp & Hpb & Hr).
  unfold UserRegisterSerializer_is_valid, bind, get_db. rewrite Hn, Hp.
  cbn [run_field omap list_omap].
  unfold not_blank, max_length, unique_username. rewrite Hfree.
  destruct (String.eqb_spec n EmptyString); [contradiction|].
  destruct (Nat.ltb_spec 150 (String.length n)); [lia|].
  destruct (String.eqb_spec p EmptyString); [contradiction|].
  destruct r as [c|].
  - destruct Hr as [-> [-> | ->]]; reflexivity.
  - rewrite Hr. reflexivity.
Qed.

(** The outcome of [RegisterView.create]: a 400 and no write, or a 200
    and the new account stored under a new key. *)
Lemma RegisterView_create_outcome mp req st :
  (∃ errors,
      RegisterView_create mp req st =
        (inr (mkResponse 400 (error (JErrors errors))), st) ∧ errors ≠ []) ∨
  (∃ v, register_valid (users st) (data req) v ∧
      RegisterView_create mp req st =
        (inr (mkResponse 200 (message "Registered successfully")),
         mkDb (<[next_id (users st) := registered mp v]> (users st))
              (events st) (tickets st))).
Proof.
  destruct (UserRegisterSerializer_is_valid (data req) st) as [r st'] eqn:Hv.
  pose proof (UserRegisterSerializer_is_valid_inv _ _ _ _ Hv) as [-> Hr].
  unfold RegisterView_create, try_except, bind. rewrite Hv.
  destruct r as [e|v].
  - left. destruct Hr as (errors & -> & Hne). eauto.
  - right. exists v. split; [assumption|].
    destruct Hr as (_ & Hnb & _ & Hfree & _).
    unfold UserRegisterSerializer_create, UserManager_create_user,
      UserTable.save, bind, get_db, raise, ret, modify_db. cbn.
    destruct (String.eqb_spec (v_username v) EmptyString); [contradiction|].
    cbn. rewrite Hfree. reflexivity.
Qed.

(** ** One request, at the level of the routes *)

Lemma check_permissions_regular {D} (req : Request D) :
  check_permissions TicketPurchaseAPIView_permission_classes req = None →
  ∃ u, request_user req = Some u ∧ role u.2 = "User"%string.
Proof.
  unfold TicketPurchaseAPIView_permission_classes. cbn.
  unfold is_authenticated, role_is.
  destruct (request_user req) as [u|]; cbn; [| discriminate].
  destruct (String.eqb_spec (role u.2) "User"); cbn; [eauto | discriminate].
Qed.

Lemma exception_handler_status e :
  status (exception_handler e) ≠ 200 ∧ status (exception_handler e) ≠ 201.
Proof. destruct e; cbn; lia. Qed.

Lemma handle_effect mp c st :
  effect mp st c (handle mp c st).1 (handle mp c st).2.
Proof.
  destruct c as [req | req | id now req]; unfold handle, dispatch.
  - cbn [check_permissions RegisterView_permission_classes has_permission].
    destruct (method req); cbn [fst snd];
      try (apply effect_none; apply exception_handler_status).
    destruct (RegisterView_create_outcome mp req st)
      as [(errors & -> & _) | (v & Hv & ->)]; cbn [fst snd].
    + apply effect_none. cbn. lia.
    + by apply effect_registered.
  - destruct (check_permissions _ req); cbn [fst snd];
      [apply effect_none; apply exception_handler_status|].
    destruct (method req) eqn:Hm; cbn [fst snd];
      try (apply effect_none; apply exception_handler_status).
    + apply effect_none. cbn. lia.
    + destruct (EventAPIView_create_outcome req st)
        as [(errors & -> & _) | (v & Hv & ->)]; cbn [fst snd].
      * apply effect_none. cbn. lia.
      * by apply effect_created.
  - destruct (check_permissions _ req) eqn:Hperm; cbn [fst snd];
      [apply effect_none; apply exception_handler_status|].
    apply check_permissions_regular in Hperm as (u & Hu & Hrole).
    destruct (method req) eqn:Hm; cbn [fst snd];
      try (apply effect_none; apply exception_handler_status).
    destruct (TicketPurchaseAPIView_create_outcome id now req st); cbn [fst snd];
      try (apply effect_none; first [apply exception_handler_status | cbn; lia]).
    eapply effect_purchased; eauto. congruence.
Qed.

(** Case analysis on what serving [c] in [st] did. *)
Ltac handle_cases mp c st :=
  let H := fresh "Heffect" in
  let Hh := fresh "Hhandle" in
  let r := fresh "r" in
  let st' := fresh "st'" in
  pose proof (handle_effect mp c st) as H;
  destruct (handle mp c st) as [r st'] eqn:Hh;
  cbn [fst snd] in *;
  inversion H; subst; clear H.

(** ** The purchase *)

(** C1 (the code departs from the claim): a successful purchase of one
    ticket for an event with five tickets and none sold answers 201,
    stores one ticket of quantity 1, and leaves [tickets_sold] at 2: the
    counter moved by twice the quantity. *)
Lemma purchase_of_one_raises_tickets_sold_by_two :
  handle sample_hasher (post_purchase 1 0 1) (one_event 5) =
    (mkResponse 201
       (JObj [("message", JStr "Ticket purchased successfully");
              ("ticket", JObj [("quantity", JInt 1)])]),
     mkDb ∅ {[ 1%nat := mkEvent "Gig" "2025-06-01" 5 2 ]}
          [mkTicket 2 1 1 0]).
Proof. vm_compute. reflexivity. Qed.

(** Every successful purchase moves the counter by [quantity + quantity]. *)
Lemma purchase_success_tickets_sold mp id now req st :
  status (handle mp (ticket_purchase id now req) st).1 = 201 →
  ∃ row q,
    events st !! id = Some row ∧ pd_quantity (data req) = Parsed q ∧
    events (handle mp (ticket_purchase id now req) st).2 !! id
      = Some (purchased q row).
Proof.
  handle_cases mp (ticket_purchase id now req) st; intros Hs.
  - contradiction.
  - exists row, q. repeat split; try assumption.
    cbn. apply lookup_insert_eq.
Qed.

(** The capacity check of [validate] refuses and nothing is written. *)
Lemma TicketPurchaseAPIView_create_insufficient id now req st row q :
  events st !! id = Some row →
  pd_quantity (data req) = Parsed q →
  1 ≤ q →
  tickets_sold row + q > total_tickets row →
  TicketPurchaseAPIView_create id now req st
    = (inl (ValidationError [NonFieldError (tickets_left_message row)]), st).
Proof.
  intros Hrow Hq Hq1 Hgt.
  destruct (TicketPurchaseAPIView_create_outcome id now req st)
    as [Hnone | row' errors Hrow' Herr Hne | row' q' Hrow' Hq' _ _
        | row' q' Hrow' Hq' _ Hle _ | row' q' u Hrow' Hq' _ Hle _];
    rewrite Hrow in *; rewrite ?Hq in *; simplify_eq.
  - cbn in Hne. unfold min_value in Hne.
    destruct (Z.ltb_spec q 1); [lia | contradiction].
  - reflexivity.
  - lia.
  - lia.
Qed.

(** A purchase that the route admits and the capacity check refuses is
    answered 400 and writes nothing. *)
Lemma insufficient_capacity_refused mp id now req st row q u :
  method req = POST →
  request_user req = Some u →
  role u.2 = "User"%string →
  events st !! id = Some row →
  pd_quantity (data req) = Parsed q →
  1 ≤ q →
  tickets_sold row + q > total_tickets row →
  handle mp (ticket_purchase id now req) st =
    (mkResponse 400 (JErrors [NonFieldError (tickets_left_message row)]), st).
Proof.
  intros Hm Hu Hr Hrow Hq Hq1 Hgt. unfold handle, dispatch.
  unfold TicketPurchaseAPIView_permission_classes.
  cbn [check_permissions has_permission]. unfold is_authenticated, role_is.
  rewrite Hu, Hr, Hm. cbn [String.eqb andb].
  rewrite (TicketPurchaseAPIView_create_insufficient id now req st row q)
    by assumption.
  reflexivity.
Qed.

(** A purchase that the route admits and the capacity check lets
    through is answered 201 and writes the counter and the ticket. *)
Lemma purchase_accepted mp id now req st row q u :
  method req = POST →
  request_user req = Some u →
  role u.2 = "User"%string →
  events st !! id = Some row →
  pd_quantity (data req) = Parsed q →
  1 ≤ q →
  tickets_sold row + q ≤ total_tickets row →
  handle mp (ticket_purchase id now req) st =
    (mkResponse 201
       (JObj [("message", JStr "Ticket purchased successfully");
              ("ticket", JObj [("quantity", JInt q)])]),
     mkDb (users st) (<[id := purchased q row]> (events st))
          (tickets st ++ [mkTicket u.1 id q now])).
Proof.
  intros Hm Hu Hr Hrow Hq Hq1 Hle. unfold handle, dispatch.
  unfold TicketPurchaseAPIView_permission_classes.
  cbn [check_permissions has_permission]. unfold is_authenticated, role_is.
  rewrite Hu, Hr, Hm. cbn [String.eqb andb].
  assert (TicketPurchaseAPIView_create id now req st =
    (inr (mkResponse 201
       (JObj [("message", JStr "Ticket purchased successfully");
              ("ticket", JObj [("quantity", JInt q)])])),
     mkDb (users st) (<[id := purchased q row]> (events st))
          (tickets st ++ [mkTicket u.1 id q now]))) as ->; [| reflexivity].
  destruct (TicketPurchaseAPIView_create_outcome id now req st)
    as [Hnone | row' errors Hrow' Herr Hne | row' q' Hrow' Hq' _ Hgt
        | row' q' Hrow' Hq' _ _ Hanon | row' q' u' Hrow' Hq' _ _ Hu'];
    rewrite Hrow in *; rewrite ?Hq in *; rewrite ?Hu in *; simplify_eq.
  - cbn in Hne. unfold min_value in Hne.
    destruct (Z.ltb_spec q 1); [lia | contradiction].
  - lia.
  - reflexivity.
Qed.

(** Served one after the other, [n] purchases of one ticket each
    against an event with counter [tickets_sold row] succeed
    [(total_tickets row - tickets_sold row + 1) / 2] times at most: each
    success uses up two units of the capacity. *)
Lemma serial_single_purchases mp id now req u (n : nat) : ∀ st row,
  method req = POST →
  request_user req = Some u →
  role u.2 = "User"%string →
  pd_quantity (data req) = Parsed 1 →
  events st !! id = Some row →
  successes (run mp (repeat (ticket_purchase id now req) n) st).1
  = Nat.min n (Z.to_nat ((total_tickets row - tickets_sold row + 1) / 2)).
Proof.
  induction n as [|n IH]; intros st row Hm Hu Hr Hq Hrow; [reflexivity|].
  cbn [repeat run fst snd].
  destruct (Z.le_gt_cases (tickets_sold row + 1) (total_tickets row))
    as [Hle | Hgt].
  - rewrite (purchase_accepted mp id now req st row 1 u) by (assumption || lia).
    cbn [fst snd]. unfold successes in *. cbn [List.filter status Z.eqb Pos.eqb].
    cbn [length].
    rewrite (IH _ (purchased 1 row)); try assumption;
      [| cbn [events]; apply lookup_insert_eq].
    cbn [purchased total_tickets tickets_sold].
    replace (total_tickets row - tickets_sold row + 1)
      with ((total_tickets row - (tickets_sold row + 1 + 1) + 1) + 1 * 2)
      by lia.
    rewrite Z.div_add by lia.
    assert (0 ≤ (total_tickets row - (tickets_sold row + 1 + 1) + 1) / 2)
      by (apply Z.div_pos; lia).
    lia.
  - rewrite (insufficient_capacity_refused mp id now req st row 1 u)
      by (assumption || lia).
    cbn [fst snd]. unfold successes in *. cbn [List.filter status Z.eqb Pos.eqb].
    rewrite (IH st row) by assumption.
    assert ((total_tickets row - tickets_sold row + 1) / 2 ≤ 0).
    { apply Z.lt_succ_r. apply Z.div_lt_upper_bound; lia. }
    lia.
Qed.

(** C4 (the code departs from the claim): two purchases of one ticket
    each, served one after the other against an event with two tickets,
    end in one success and one refusal, where the claim has
    [min 2 2 = 2] successes. Serving the requests in turn is one of the
    schedules of concurrent callers. *)
Lemma two_buyers_two_tickets_one_success :
  map status
    (run sample_hasher [post_purchase 1 0 1; post_purchase 1 1 1]
         (one_event 2)).1 = [201; 400] ∧
  successes
    (run sample_hasher [post_purchase 1 0 1; post_purchase 1 1 1]
         (one_event 2)).1 = 1%nat ∧
  Nat.min 2 2 = 2%nat.
Proof. vm_compute. auto. Qed.

(** C5: a purchase of [q >= 1] tickets for an existing event with
    [tickets_sold + q > total_tickets] fails with the validation error
    whose message reports [total_tickets - tickets_sold], and writes
    nothing. This holds of the view for any caller, of the route for
    every caller the route admits, and of the check that
    [TicketPurchaseSerializer.create] repeats inside its transaction on
    the row it reads there. *)
Theorem insufficient_capacity_reports_remaining mp id now req st row q :
  events st !! id = Some row →
  pd_quantity (data req) = Parsed q →
  1 ≤ q →
  tickets_sold row + q > total_tickets row →
  let detail :=
    [NonFieldError
       ("Only " +:+ str (total_tickets row - tickets_sold row)
                +:+ " tickets left.")] in
  TicketPurchaseAPIView_create id now req st
    = (inl (ValidationError detail), st) ∧
  (method req = POST →
   has_permission IsRegularUser req = true →
   handle mp (ticket_purchase id now req) st
     = (mkResponse 400 (JErrors detail), st)) ∧
  (∀ stale,
     TicketPurchaseSerializer_create now
       (mkPurchaseContext (request_user req) (id, stale)) q st
     = (inl (ValidationError detail), st)).
Proof.
  intros Hrow Hq Hq1 Hgt detail.
  assert (TicketPurchaseAPIView_create id now req st
          = (inl (ValidationError detail), st)) as Hview.
  { apply (TicketPurchaseAPIView_create_insufficient id now req st row q);
      assumption. }
  split; [exact Hview|]. split.
  - intros Hm Hperm. unfold handle, dispatch.
    unfold TicketPurchaseAPIView_permission_classes. cbn [check_permissions].
    rewrite Hperm. cbn in Hperm. apply andb_true_iff in Hperm as [Ha _].
    cbn [has_permission]. rewrite Ha, Hm, Hview. reflexivity.
  - intros stale.
    cbv beta iota zeta delta [TicketPurchaseSerializer_create
      transaction_atomic bind EventTable.get get_db ret raise ctx_event
      ctx_user fst snd].
    rewrite Hrow.
    destruct (Z.gtb_spec (tickets_sold row + q) (total_tickets row)); [|lia].
    reflexivity.
Qed.

(** Three tickets asked of an event with two left. *)
Lemma insufficient_capacity_reports_remaining_witness :
  events (one_event 2) !! 1%nat = Some (mkEvent "Gig" "2025-06-01" 2 0) ∧
  TicketPurchaseAPIView_create 1 0
      (mkRequest POST (Some alice) (mkPurchaseData (Parsed 3))) (one_event 2)
    = (inl (ValidationError [NonFieldError "Only 2 tickets left."]),
       one_event 2) ∧
  handle sample_hasher (post_purchase 1 0 3) (one_event 2)
    = (mkResponse 400 (JErrors [NonFieldError "Only 2 tickets left."]),
       one_event 2).
Proof.
  assert (events (one_event 2) !! 1%nat
          = Some (mkEvent "Gig" "2025-06-01" 2 0)) as Hrow by reflexivity.
  pose proof (insufficient_capacity_reports_remaining sample_hasher 1 0
                (mkRequest POST (Some alice) (mkPurchaseData (Parsed 3)))
                (one_event 2) _ 3 Hrow eq_refl ltac:(lia) ltac:(cbn; lia))
    as (Hview & Hroute & _).
  split; [exact Hrow|]. split; [exact Hview|].
  apply Hroute; reflexivity.
Defined.

(** Whatever [TicketPurchaseAPIView.create] raises, and the 404 it
    answers, come with the database it started from: what the
    transaction wrote before a failure is rolled back. *)
Lemma TicketPurchaseAPIView_create_failure id now req st :
  match (TicketPurchaseAPIView_create id now req st).1 with
  | inl _ => True
  | inr r => status r ≠ 201
  end →
  (TicketPurchaseAPIView_create id now req st).2 = st.
Proof.
  destruct (TicketPurchaseAPIView_create_outcome id now req st);
    cbn; try reflexivity.
  intros Hok. exfalso. apply Hok. reflexivity.
Qed.

(** C6: a purchase request that does not end in 201 -- refused by the
    permissions, a method other than POST, an unknown event, an invalid
    quantity, too few tickets left, or an exception of the transaction --
    leaves the database as it was; and a purchase never writes one of
    counter and ledger without the other. *)
Theorem failed_purchase_leaves_database mp id now req st :
  (status (handle mp (ticket_purchase id now req) st).1 ≠ 201 →
   (handle mp (ticket_purchase id now req) st).2 = st) ∧
  (match (TicketPurchaseAPIView_create id now req st).1 with
   | inl _ => True
   | inr r => status r ≠ 201
   end → (TicketPurchaseAPIView_create id now req st).2 = st) ∧
  ((handle mp (ticket_purchase id now req) st).2 = st ∨
   (tickets (handle mp (ticket_purchase id now req) st).2 ≠ tickets st ∧
    events (handle mp (ticket_purchase id now req) st).2 !! id
      ≠ events st !! id)).
Proof.
  split; [| split].
  - handle_cases mp (ticket_purchase id now req) st; intros Hfail;
      [reflexivity | cbn in Hfail; contradiction].
  - apply TicketPurchaseAPIView_create_failure.
  - handle_cases mp (ticket_purchase id now req) st; [by left | right].
    cbn. split.
    + intros Heq. apply (f_equal length) in Heq.
      rewrite length_app in Heq. cbn in Heq. lia.
    + rewrite lookup_insert_eq. intros Heq.
      match goal with Hr : events _ !! _ = Some _ |- _ => rewrite Hr in Heq end.
      injection Heq as Heq. apply (f_equal tickets_sold) in Heq.
      cbn in Heq. lia.
Qed.

(** The refused purchase of three tickets from an event with two. *)
Lemma failed_purchase_leaves_database_witness :
  status (handle sample_hasher (post_purchase 1 0 3) (one_event 2)).1 ≠ 201 ∧
  (handle sample_hasher (post_purchase 1 0 3) (one_event 2)).2 = one_event 2.
Proof.
  assert (status (handle sample_hasher (post_purchase 1 0 3) (one_event 2)).1
          ≠ 201) as Hfail by (vm_compute; discriminate).
  split; [exact Hfail|].
  exact (proj1 (failed_purchase_leaves_database sample_hasher 1 0
                  (mkRequest POST (Some alice) (mkPurchaseData (Parsed 3)))
                  (one_event 2)) Hfail).
Defined.

(** ** Access policy *)

(** C9: a [POST events/] by an authenticated account with role User is
    refused (403), a purchase by an authenticated account with role
    Admin is refused (403), and an anonymous caller is refused both
    (401); nothing is written. *)
Theorem role_gating mp st :
  (∀ req u, method req = POST → request_user req = Some u →
     role u.2 = "User"%string →
     handle mp (events_ req) st = (exception_handler PermissionDenied, st)) ∧
  (∀ id now req u, request_user req = Some u → role u.2 = "Admin"%string →
     handle mp (ticket_purchase id now req) st
       = (exception_handler PermissionDenied, st)) ∧
  (∀ req, request_user req = None →
     handle mp (events_ req) st = (exception_handler NotAuthenticated, st)) ∧
  (∀ id now req, request_user req = None →
     handle mp (ticket_purchase id now req) st
       = (exception_handler NotAuthenticated, st)).
Proof.
  repeat split.
  - intros req u Hm Hu Hr. unfold handle, dispatch.
    cbn. unfold is_authenticated, role_is. rewrite Hu, Hm, Hr. reflexivity.
  - intros id now req u Hu Hr. unfold handle, dispatch.
    cbn. unfold is_authenticated, role_is. rewrite Hu, Hr. reflexivity.
  - intros req Hu. unfold handle, dispatch.
    cbn. unfold is_authenticated. rewrite Hu. reflexivity.
  - intros id now req Hu. unfold handle, dispatch.
    cbn. unfold is_authenticated. rewrite Hu. reflexivity.
Qed.

(** [alice] may not create, [root] may not buy, nobody may buy unauthenticated. *)
Lemma role_gating_witness :
  status (handle sample_hasher
            (events_ (mkRequest POST (Some alice)
               (mkEventData (Parsed "Gig") (Parsed "2025-06-01") (Parsed 5)
                            Missing))) empty_db).1 = 403 ∧
  status (handle sample_hasher
            (ticket_purchase 1 0
               (mkRequest POST (Some root) (mkPurchaseData (Parsed 1))))
            (one_event 5)).1 = 403 ∧
  status (handle sample_hasher
            (ticket_purchase 1 0
               (mkRequest POST None (mkPurchaseData (Parsed 1))))
            (one_event 5)).1 = 401.
Proof.
  pose proof (role_gating sample_hasher empty_db) as (Huser & _).
  pose proof (role_gating sample_hasher (one_event 5))
    as (_ & Hadmin & _ & Hanon).
  rewrite (Huser (mkRequest POST (Some alice) _) alice
             eq_refl eq_refl eq_refl).
  rewrite (Hadmin 1%nat 0 (mkRequest POST (Some root) _) root
             eq_refl eq_refl).
  rewrite (Hanon 1%nat 0 (mkRequest POST None _) eq_refl).
  repeat split.
Defined.

(** ** Event creation *)

Lemma event_valid_requested_sold d v :
  event_valid d v → default 0 (v_tickets_sold v) = requested_sold d.
Proof.
  intros (_ & _ & _ & _ & _ & Hs). unfold requested_sold.
  destruct (v_tickets_sold v); rewrite Hs; reflexivity.
Qed.

(** C7, refuted as stated: an administrator's request with
    [tickets_sold = 7] is answered 201 and the event is stored with
    [tickets_sold = 7]. *)
Lemma created_event_may_start_sold :
  status (handle sample_hasher (post_event (Parsed 10) (Parsed 7)) empty_db).1
    = 201 ∧
  ∃ row,
    events (handle sample_hasher (post_event (Parsed 10) (Parsed 7))
              empty_db).2 !! 1%nat = Some row ∧
    tickets_sold row = 7 ∧ tickets_sold row ≠ 0.
Proof.
  split; [reflexivity|]. eexists. split; [reflexivity|]. cbn. lia.
Qed.

(** C7, amended: an event created through [POST events/] is stored
    under a new key with the [tickets_sold] of the request when the
    request carries one, and with 0 when it carries none. *)
Theorem created_event_tickets_sold mp req st :
  status (handle mp (events_ req) st).1 = 201 →
  events st !! next_id (events st) = None ∧
  ∃ row,
    events (handle mp (events_ req) st).2 !! next_id (events st) = Some row ∧
    (ev_tickets_sold (data req) = Missing → tickets_sold row = 0) ∧
    (∀ s, ev_tickets_sold (data req) = Parsed s → tickets_sold row = s) ∧
    ev_tickets_sold (data req) ≠ Malformed.
Proof.
  handle_cases mp (events_ req) st; intros Hs; [contradiction|].
  split; [apply next_id_fresh|]. eexists. split; [apply lookup_insert_eq|].
  cbn [tickets_sold].
  match goal with Hv : event_valid _ _ |- _ =>
    destruct Hv as (_ & _ & _ & _ & _ & Hsold) end.
  destruct (v_tickets_sold v); rewrite Hsold; cbn;
    repeat split; congruence.
Qed.

(** A creation request without [tickets_sold]. *)
Lemma created_event_tickets_sold_witness :
  status (handle sample_hasher (post_event (Parsed 10) Missing) empty_db).1
    = 201 ∧
  ∃ row,
    events (handle sample_hasher (post_event (Parsed 10) Missing)
              empty_db).2 !! next_id (events empty_db) = Some row ∧
    tickets_sold row = 0.
Proof.
  assert (status (handle sample_hasher (post_event (Parsed 10) Missing)
                    empty_db).1 = 201) as Hs by reflexivity.
  split; [exact Hs|].
  destruct (created_event_tickets_sold sample_hasher _ empty_db Hs)
    as (_ & row & Hrow & Hmissing & _).
  exists row. split; [exact Hrow | exact (Hmissing eq_refl)].
Defined.

(** C8, refuted as stated: an administrator's request with
    [total_tickets = -3] is answered 201 and the event is stored. *)
Lemma negative_total_tickets_is_accepted :
  handle sample_hasher (post_event (Parsed (-3)) Missing) empty_db =
    (mkResponse 201 (message "Event created successfully"),
     mkDb ∅ {[ 1%nat := mkEvent "Gig" "2025-06-01" (-3) 0 ]} []).
Proof. vm_compute. reflexivity. Qed.

(** C8, amended: for an administrator's [POST events/], a
    [total_tickets] that is absent or not an integer is refused with a
    validation error on that field and nothing is written; being
    negative is no ground for refusal: an integer from -2147483648 to
    2147483647, which every database column holds, is accepted, and with
    the other fields valid (a non-blank name of at most 255 bytes
    without the NUL character, a date, and a [tickets_sold] that is
    absent or in that range too) the answer is 201 and the event is
    stored with that [total_tickets]. *)
Theorem create_event_total_tickets mp req st :
  method req = POST →
  has_permission IsAdminUser req = true →
  match ev_total_tickets (data req) with
  | Parsed t =>
      safe_integer t →
      ∀ n dt, ev_name (data req) = Parsed n → n ≠ EmptyString →
        (String.length n ≤ 255)%nat → nul_free n = true →
        ev_date (data req) = Parsed dt →
        ev_tickets_sold (data req) ≠ Malformed →
        (∀ s, ev_tickets_sold (data req) = Parsed s → safe_integer s) →
        handle mp (events_ req) st =
          (mkResponse 201 (message "Event created successfully"),
           mkDb (users st)
                (<[next_id (events st) :=
                     mkEvent n dt t (requested_sold (data req))]> (events st))
                (tickets st))
  | _ =>
      ∃ errors code,
        handle mp (events_ req) st = (mkResponse 400 (JErrors errors), st) ∧
        FieldError "total_tickets" code ∈ errors
  end.
Proof.
  intros Hm Hperm. unfold handle, dispatch.
  assert (check_permissions EventAPIView_permission_classes req = None) as ->.
  { unfold has_permission in Hperm. rewrite Hm in Hperm.
    apply andb_true_iff in Hperm as [Ha Hr].
    unfold EventAPIView_permission_classes.
    cbn [check_permissions has_permission]. rewrite Hm, Ha, Hr. reflexivity. }
  rewrite Hm.
  destruct (EventAPIView_create_outcome req st)
    as [(errors & -> & Hne & Herr) | (v & Hv & ->)].
  - destruct (ev_total_tickets (data req)) as [| |t] eqn:Ht.
    + exists errors, "required"%string. split; [reflexivity|].
      rewrite Herr. cbn. set_solver.
    + exists errors, "invalid"%string. split; [reflexivity|].
      rewrite Herr. cbn. set_solver.
    + intros _ n dt Hn Hnb Hlen _ Hd Hs _. exfalso.
      pose proof (run_field_name (ev_name (data req))) as Hname.
      rewrite !run_field_no_validators, Hd in Herr.
      destruct (run_field "name" _ _ _) as [[|e en] on].
      * destruct (ev_tickets_sold (data req)); cbn in Herr; subst;
          congruence.
      * destruct (Hname n Hn); [contradiction | lia].
  - pose proof (event_valid_requested_sold _ _ Hv) as Hsold.
    destruct Hv as (Hn & _ & _ & Hd & Ht & _). rewrite Ht.
    intros _ n dt Hn' _ _ _ Hd' _ _. rewrite Hsold.
    rewrite Hn in Hn'. rewrite Hd in Hd'. simplify_eq. reflexivity.
Qed.

(** A malformed and a negative [total_tickets]. *)
Lemma create_event_total_tickets_witness :
  (∃ errors,
     handle sample_hasher (post_event Malformed Missing) empty_db
       = (mkResponse 400 (JErrors errors), empty_db)) ∧
  handle sample_hasher (post_event (Parsed (-3)) Missing) empty_db =
    (mkResponse 201 (message "Event created successfully"),
     mkDb ∅ {[ 1%nat := mkEvent "Gig" "2025-06-01" (-3) 0 ]} []).
Proof.
  split.
  - destruct (create_event_total_tickets sample_hasher
                (mkRequest POST (Some root)
                   (mkEventData (Parsed "Gig") (Parsed "2025-06-01")
                                Malformed Missing))
                empty_db eq_refl eq_refl) as (errors & code & H & _).
    exists errors. exact H.
  - exact (create_event_total_tickets sample_hasher
             (mkRequest POST (Some root)
                (mkEventData (Parsed "Gig") (Parsed "2025-06-01")
                             (Parsed (-3)) Missing))
             empty_db eq_refl eq_refl ltac:(unfold safe_integer; lia)
             "Gig"%string "2025-06-01"%string
             eq_refl ltac:(discriminate) ltac:(cbn; lia) eq_refl eq_refl
             ltac:(discriminate) ltac:(intros s Hs; discriminate Hs)).
Defined.

(** ** Registration *)



(** ** Sequences of requests *)

Lemma sold_within_nonneg st : sold_within st → sold_nonneg st.
Proof. intros H id row Hrow. apply (H id row Hrow). Qed.

Lemma handle_sold_nonneg mp c st :
  creation_in_bounds c → sold_nonneg st → sold_nonneg (handle mp c st).2.
Proof.
  intros Hc Hst. handle_cases mp c st; try assumption; intros k r Hk;
    cbn [events] in Hk.
  - destruct (decide (k = next_id (events st))) as [->|Hne].
    + rewrite lookup_insert_eq in Hk. injection Hk as <-. cbn.
      match goal with Hv : event_valid _ _ |- _ =>
        rewrite (event_valid_requested_sold _ _ Hv);
        destruct Hv as (_ & _ & _ & _ & Ht & _) end.
      apply (Hc _ Ht).
    + rewrite lookup_insert_ne in Hk by done. exact (Hst k r Hk).
  - destruct (decide (k = id)) as [->|Hne].
    + rewrite lookup_insert_eq in Hk. injection Hk as <-. cbn.
      match goal with Hr : events st !! id = Some _ |- _ =>
        pose proof (Hst _ _ Hr) end. lia.
    + rewrite lookup_insert_ne in Hk by done. exact (Hst k r Hk).
Qed.

Lemma handle_sold_within mp c st :
  creation_in_bounds c → no_sale c (handle mp c st).1 →
  sold_within st → sold_within (handle mp c st).2.
Proof.
  intros Hc Hns Hst. handle_cases mp c st; try assumption; intros k r Hk;
    cbn [events] in Hk.
  - destruct (decide (k = next_id (events st))) as [->|Hne].
    + rewrite lookup_insert_eq in Hk. injection Hk as <-. cbn.
      match goal with Hv : event_valid _ _ |- _ =>
        rewrite (event_valid_requested_sold _ _ Hv);
        destruct Hv as (_ & _ & _ & _ & Ht & _) end.
      apply (Hc _ Ht).
    + rewrite lookup_insert_ne in Hk by done. exact (Hst k r Hk).
  - cbn in Hns. contradiction.
Qed.

(** C2, refuted as stated: one creation request with
    [total_tickets = -1] leaves an event whose counter, 0, is above its
    total. *)
Lemma created_event_may_break_bounds :
  ∃ row,
    events (run sample_hasher [post_event (Parsed (-1)) Missing] empty_db).2
      !! 1%nat = Some row ∧
    total_tickets row < tickets_sold row.
Proof. eexists. split; [reflexivity|]. cbn. lia. Qed.

(** C2, amended: event creation stores the integers it is given, so the
    bounds hold of a new event when its request asks for
    [0 <= tickets_sold <= total_tickets] ([tickets_sold] being 0 when
    absent). From a database within bounds, after any sequence of
    requests whose creation requests ask for that, every event has
    [0 <= tickets_sold]; and every event has
    [tickets_sold <= total_tickets] as well when no purchase of the
    sequence succeeded. *)
Theorem counter_bounds_along_requests mp cs st :
  sold_within st →
  Forall creation_in_bounds cs →
  sold_nonneg (run mp cs st).2 ∧
  (Forall2 no_sale cs (run mp cs st).1 → sold_within (run mp cs st).2).
Proof.
  intros Hst Hcs. revert st Hst.
  induction Hcs as [|c cs Hc Hcs IH]; intros st Hst; cbn [run fst snd].
  - split; [by apply sold_within_nonneg | intros _; assumption].
  - split.
    + clear IH. apply sold_within_nonneg in Hst.
      pose proof (handle_sold_nonneg mp c st Hc Hst) as Hnext.
      revert Hnext. generalize (handle mp c st).2. clear Hst st.
      induction Hcs as [|c' cs' Hc' Hcs' IH']; intros st Hst;
        cbn [run fst snd]; [assumption|].
      apply IH'. by apply handle_sold_nonneg.
    + intros Hns. apply Forall2_cons in Hns as [Hns1 Hns2].
      apply IH; [| assumption]. by apply handle_sold_within.
Qed.

(** One event of two tickets and a refused purchase of three. *)
Lemma counter_bounds_along_requests_witness :
  sold_within
    (run sample_hasher
       [post_event (Parsed 2) Missing; post_purchase 1 0 3] empty_db).2.
Proof.
  apply (counter_bounds_along_requests sample_hasher
           [post_event (Parsed 2) Missing; post_purchase 1 0 3] empty_db).
  - intros id row Hrow. unfold empty_db in Hrow. cbn [events] in Hrow.
    rewrite lookup_empty in Hrow. discriminate.
  - constructor; [| constructor; [exact I | constructor]].
    intros t [= <-]. cbn. lia.
  - constructor; [exact I | constructor; [| constructor]].
    vm_compute. discriminate.
Defined.

(** ** The ledger against the counters *)

Lemma committed_unreferenced id l :
  (∀ t, t ∈ l → event t ≠ id) → committed id l = 0.
Proof.
  induction l as [|t l IH]; intros H; cbn; [reflexivity|].
  destruct (Nat.eqb_spec (event t) id) as [Heq|_].
  - exfalso. apply (H t); [left | assumption].
  - apply IH. intros t' Ht'. apply H. by right.
Qed.

Lemma committed_fresh st :
  references_ok st → committed (next_id (events st)) (tickets st) = 0.
Proof.
  intros Hrefs. apply committed_unreferenced. intros t Ht Heq.
  destruct (Hrefs t Ht) as [row Hrow]. rewrite Heq, next_id_fresh in Hrow.
  discriminate.
Qed.

Lemma handle_references_ok mp c st :
  references_ok st → references_ok (handle mp c st).2.
Proof.
  intros Hst. handle_cases mp c st; try assumption; intros t Ht;
    cbn [events tickets] in *.
  - destruct (Hst t Ht) as [row Hrow].
    rewrite lookup_insert_ne by (symmetry; by eapply next_id_other). eauto.
  - apply elem_of_app in Ht as [Ht | Ht%list_elem_of_singleton].
    + destruct (Hst t Ht) as [row' Hrow'].
      destruct (decide (event t = id)) as [->|Hne].
      * rewrite lookup_insert_eq. eauto.
      * rewrite lookup_insert_ne by done. eauto.
    + subst t. cbn. rewrite lookup_insert_eq. eauto.
Qed.

Lemma handle_committed mp c st id :
  committed id (tickets (handle mp c st).2)
  = committed id (tickets st) + sale id c (handle mp c st).1.
Proof.
  handle_cases mp c st; cbn [tickets].
  - destruct c as [req | req | id' now req]; cbn [sale]; try lia.
    destruct (status r =? 201) eqn:E; [apply Z.eqb_eq in E; contradiction|].
    rewrite andb_false_r. lia.
  - cbn. lia.
  - cbn. lia.
  - rewrite committed_snoc. cbn [sale event quantity status].
    match goal with Hq : pd_quantity _ = _ |- _ => rewrite Hq end.
    rewrite Z.eqb_refl, andb_true_r. reflexivity.
Qed.

Lemma handle_covered mp c st :
  creation_from_zero c → references_ok st → covered st →
  covered (handle mp c st).2.
Proof.
  intros Hc Hrefs Hst. handle_cases mp c st; try assumption; intros k r Hk;
    cbn [events tickets] in *.
  - destruct (decide (k = next_id (events st))) as [->|Hne].
    + rewrite committed_fresh by assumption.
      rewrite lookup_insert_eq in Hk. injection Hk as <-. cbn.
      match goal with Hv : event_valid _ _ |- _ =>
        rewrite (event_valid_requested_sold _ _ Hv) end.
      cbn in Hc. lia.
    + rewrite lookup_insert_ne in Hk by done. exact (Hst k r Hk).
  - rewrite committed_snoc. cbn [event quantity].
    destruct (decide (k = id)) as [->|Hne].
    + rewrite lookup_insert_eq in Hk. injection Hk as <-. cbn.
      rewrite Nat.eqb_refl.
      match goal with Hr : events st !! id = Some _ |- _ =>
        pose proof (Hst _ _ Hr) end. lia.
    + rewrite lookup_insert_ne in Hk by done.
      destruct (Nat.eqb_spec id k); [congruence|].
      pose proof (Hst k r Hk). lia.
Qed.

Lemma handle_conserved mp c st :
  creation_from_zero c → no_sale c (handle mp c st).1 →
  references_ok st → conserved st → conserved (handle mp c st).2.
Proof.
  intros Hc Hns Hrefs Hst. handle_cases mp c st; try assumption;
    intros k r Hk; cbn [events tickets] in *.
  - destruct (decide (k = next_id (events st))) as [->|Hne].
    + rewrite committed_fresh by assumption.
      rewrite lookup_insert_eq in Hk. injection Hk as <-. cbn.
      match goal with Hv : event_valid _ _ |- _ =>
        rewrite (event_valid_requested_sold _ _ Hv) end.
      exact Hc.
    + rewrite lookup_insert_ne in Hk by done. exact (Hst k r Hk).
  - cbn in Hns. contradiction.
Qed.

Lemma run_committed mp cs st id :
  committed id (tickets (run mp cs st).2)
  = committed id (tickets st) + sales id cs (run mp cs st).1.
Proof.
  revert st. induction cs as [|c cs IH]; intros st; cbn [run fst snd sales];
    [lia|].
  rewrite IH, handle_committed. lia.
Qed.

(** C3, refuted as stated: an event created with [tickets_sold = 3] and
    five tickets, after one purchase attempt for three that is refused,
    has the counter at 3 and no committed ticket. *)
Lemma counter_may_exceed_committed :
  map status
    (run sample_hasher
       [post_event (Parsed 5) (Parsed 3); post_purchase 1 0 3] empty_db).1
    = [201; 400] ∧
  ∃ row,
    events (run sample_hasher
              [post_event (Parsed 5) (Parsed 3); post_purchase 1 0 3]
              empty_db).2 !! 1%nat = Some row ∧
    tickets_sold row = 3 ∧
    committed 1
      (tickets (run sample_hasher
                  [post_event (Parsed 5) (Parsed 3); post_purchase 1 0 3]
                  empty_db).2) = 0.
Proof.
  split; [reflexivity|]. eexists. split; [reflexivity|].
  split; reflexivity.
Qed.

(** C3, amended: event creation stores the [tickets_sold] it is given,
    so the counter equals the sum of the committed quantities of a new
    event when its request leaves [tickets_sold] absent or 0. From a
    database where the two agree, after any sequence of requests whose
    creation requests do so: the committed quantities of every event
    grew by exactly the quantities of the purchases for it that
    succeeded; their sum is at most the event's counter; and the two are
    equal when no purchase of the sequence succeeded. *)
Theorem ledger_against_counter_along_requests mp cs st :
  references_ok st →
  conserved st →
  Forall creation_from_zero cs →
  (∀ id, committed id (tickets (run mp cs st).2)
         = committed id (tickets st) + sales id cs (run mp cs st).1) ∧
  covered (run mp cs st).2 ∧
  (Forall2 no_sale cs (run mp cs st).1 → conserved (run mp cs st).2).
Proof.
  intros Hrefs Hst Hcs. split; [intros id; apply run_committed|].
  revert st Hrefs Hst.
  induction Hcs as [|c cs Hc Hcs IH]; intros st Hrefs Hst; cbn [run fst snd].
  - split; [| intros _; assumption].
    intros id row Hrow. rewrite (Hst id row Hrow). lia.
  - split.
    + clear IH.
      assert (covered st) as Hcov.
      { intros id row Hrow. rewrite (Hst id row Hrow). lia. }
      pose proof (handle_covered mp c st Hc Hrefs Hcov) as Hnext.
      pose proof (handle_references_ok mp c st Hrefs) as Hrnext.
      revert Hnext Hrnext. generalize (handle mp c st).2.
      clear Hst Hcov Hrefs st.
      induction Hcs as [|c' cs' Hc' Hcs' IH']; intros st Hcov Hrefs;
        cbn [run fst snd]; [assumption|].
      apply IH'; [by apply handle_covered | by apply handle_references_ok].
    + intros Hns. apply Forall2_cons in Hns as [Hns1 Hns2].
      apply IH; [by apply handle_references_ok | by apply handle_conserved
                | assumption].
Qed.

(** One event of five tickets, a purchase of three and a refused second one. *)
Lemma ledger_against_counter_along_requests_witness :
  committed 1
    (tickets (run sample_hasher
                [post_event (Parsed 5) Missing; post_purchase 1 0 3;
                 post_purchase 1 1 3] empty_db).2) = 3 ∧
  covered
    (run sample_hasher
       [post_event (Parsed 5) Missing; post_purchase 1 0 3;
        post_purchase 1 1 3] empty_db).2.
Proof.
  destruct (ledger_against_counter_along_requests sample_hasher
              [post_event (Parsed 5) Missing; post_purchase 1 0 3;
               post_purchase 1 1 3] empty_db) as (Hsum & Hcov & _).
  - intros t Ht. unfold empty_db in Ht. cbn [tickets] in Ht.
    by apply not_elem_of_nil in Ht.
  - intros id row Hrow. unfold empty_db in Hrow. cbn [events] in Hrow.
    rewrite lookup_empty in Hrow. discriminate.
  - constructor; [reflexivity|]. repeat (constructor; [exact I|]).
    constructor.
  - split; [| exact Hcov]. rewrite (Hsum 1%nat). reflexivity.
Defined.

(** * Further properties *)

(** ** What every request keeps *)

Lemma run_keeps mp (R : db → db → Prop) :
  (∀ st, R st st) →
  (∀ a b c, R a b → R b c → R a c) →
  (∀ c st, R st (handle mp c st).2) →
  ∀ cs st, R st (run mp cs st).2.
Proof.
  intros Hrefl Htrans Hstep cs.
  induction cs as [|c cs IH]; intros st; cbn [run fst snd]; [apply Hrefl|].
  eapply Htrans; [apply Hstep | apply IH].
Qed.

Lemma handle_events_kept mp c st : events_kept st (handle mp c st).2.
Proof.
  handle_cases mp c st; intros k ev Hk; cbn [events].
  - exists ev. repeat split; try assumption; lia.
  - exists ev. repeat split; try assumption; lia.
  - exists ev. rewrite lookup_insert_ne
      by (symmetry; by eapply next_id_other).
    repeat split; try assumption; lia.
  - destruct (decide (k = id)) as [->|Hne].
    + rewrite lookup_insert_eq.
      match goal with Hr : events st !! id = Some _ |- _ =>
        rewrite Hk in Hr; injection Hr as <- end.
      eexists. split; [reflexivity|]. cbn. repeat split; lia.
    + exists ev. rewrite lookup_insert_ne by done.
      repeat split; try assumption; lia.
Qed.

(** X1: no sequence of requests removes an event or changes its name,
    date or [total_tickets], and none lowers its [tickets_sold]. *)
Theorem events_are_kept mp cs st id row :
  events st !! id = Some row →
  ∃ row', events (run mp cs st).2 !! id = Some row' ∧
    name row' = name row ∧ date row' = date row ∧
    total_tickets row' = total_tickets row ∧
    tickets_sold row ≤ tickets_sold row'.
Proof.
  revert id row. change (events_kept st (run mp cs st).2).
  apply run_keeps.
  - intros st0 k r Hk. exists r. repeat split; try assumption; lia.
  - intros a b c Hab Hbc k r Hk.
    destruct (Hab k r Hk) as (r1 & Hk1 & ? & ? & ? & ?).
    destruct (Hbc k r1 Hk1) as (r2 & Hk2 & ? & ? & ? & ?).
    exists r2. repeat split; try assumption; try congruence; lia.
  - intros c st0. apply handle_events_kept.
Qed.

(** The event of five tickets across a purchase and a second creation. *)
Lemma events_are_kept_witness :
  ∃ row',
    events (run sample_hasher
              [post_purchase 1 0 2; post_event (Parsed 9) Missing]
              (one_event 5)).2 !! 1%nat = Some row' ∧
    total_tickets row' = 5 ∧ 0 ≤ tickets_sold row'.
Proof.
  destruct (events_are_kept sample_hasher
              [post_purchase 1 0 2; post_event (Parsed 9) Missing]
              (one_event 5) 1%nat (mkEvent "Gig" "2025-06-01" 5 0) eq_refl)
    as (row' & Hrow' & _ & _ & Ht & Hs).
  exists row'. split; [exact Hrow' | split; [exact Ht | exact Hs]].
Defined.

Lemma handle_tickets_prefix mp c st :
  tickets st `prefix_of` tickets (handle mp c st).2.
Proof.
  handle_cases mp c st; cbn [tickets]; try reflexivity.
  by apply prefix_app_r.
Qed.

(** X2: the ledger is append-only: the tickets stored before a sequence
    of requests are the first tickets stored after it, in the same
    order and unchanged. *)
Theorem ledger_is_append_only mp cs st :
  tickets st `prefix_of` tickets (run mp cs st).2.
Proof.
  apply (run_keeps mp (fun a b => tickets a `prefix_of` tickets b)).
  - intros st0. reflexivity.
  - intros a b c Hab Hbc. by etrans.
  - intros c st0. apply handle_tickets_prefix.
Qed.

Lemma handle_accounts_kept mp c st : accounts_kept st (handle mp c st).2.
Proof.
  handle_cases mp c st; intros k acc Hk; cbn [users]; try assumption.
  rewrite lookup_insert_ne by (symmetry; by eapply next_id_other).
  assumption.
Qed.

(** X3: no sequence of requests removes an account or changes one: its
    username, password hash, role and flags stay as stored. *)
Theorem accounts_are_kept mp cs st pk u :
  users st !! pk = Some u → users (run mp cs st).2 !! pk = Some u.
Proof.
  revert pk u. change (accounts_kept st (run mp cs st).2).
  apply run_keeps.
  - intros st0 k v Hk. exact Hk.
  - intros a b c Hab Hbc k v Hk. apply Hbc, Hab, Hk.
  - intros c st0. apply handle_accounts_kept.
Qed.

(** [alice] across a registration that asks for her name and another. *)
Lemma accounts_are_kept_witness :
  users (run sample_hasher
           [register (mkRequest POST None
              (mkRegisterData (Parsed "alice") (Parsed "x") (Parsed "Admin")));
            register (mkRequest POST None
              (mkRegisterData (Parsed "bob") (Parsed "y") Missing))]
           with_alice).2 !! 2%nat = Some alice.2.
Proof.
  apply (accounts_are_kept sample_hasher _ with_alice 2%nat alice.2).
  reflexivity.
Defined.

(** ** Invariants the requests keep *)

Lemma exists_username_true n (t : gmap nat User) :
  UserTable.exists_username n t = true ↔
  ∃ pk u, t !! pk = Some u ∧ username u = n.
Proof.
  unfold UserTable.exists_username. rewrite existsb_exists. split.
  - intros ([pk u] & Hin & Heq). exists pk, u.
    apply list_elem_of_In, elem_of_map_to_list in Hin.
    split; [assumption|]. by apply String.eqb_eq.
  - intros (pk & u & Hu & Heq). exists (pk, u). split.
    + by apply list_elem_of_In, elem_of_map_to_list.
    + by apply String.eqb_eq.
Qed.

Lemma exists_username_false n (t : gmap nat User) :
  UserTable.exists_username n t = false ↔
  ∀ pk u, t !! pk = Some u → username u ≠ n.
Proof.
  rewrite <- not_true_iff_false, exists_username_true. split.
  - intros H pk u Hu Heq. apply H. eauto.
  - intros H (pk & u & Hu & Heq). by apply (H pk u).
Qed.

Lemma handle_usernames_unique mp c st :
  usernames_unique st → usernames_unique (handle mp c st).2.
Proof.
  intros Hst. handle_cases mp c st; try assumption.
  match goal with Hv : register_valid _ _ _ |- _ =>
    destruct Hv as (_ & _ & _ & Hfree & _) end.
  rewrite exists_username_false in Hfree.
  intros i j a b Hi Hj Heq. cbn [users] in Hi, Hj.
  destruct (decide (i = next_id (users st))) as [->|Hi'];
    destruct (decide (j = next_id (users st))) as [->|Hj'];
    try reflexivity.
  - rewrite lookup_insert_eq in Hi. rewrite lookup_insert_ne in Hj by done.
    injection Hi as <-. exfalso. apply (Hfree j b Hj). by rewrite <- Heq.
  - rewrite lookup_insert_eq in Hj. rewrite lookup_insert_ne in Hi by done.
    injection Hj as <-. exfalso. by apply (Hfree i a Hi).
  - rewrite lookup_insert_ne in Hi by done.
    rewrite lookup_insert_ne in Hj by done. by apply (Hst i j a b).
Qed.

(** X4: usernames stay unique: when no two accounts share a username,
    none do after any sequence of requests. *)
Theorem usernames_stay_unique mp cs st :
  usernames_unique st → usernames_unique (run mp cs st).2.
Proof.
  revert st. induction cs as [|c cs IH]; intros st Hst; cbn [run fst snd];
    [assumption|].
  by apply IH, handle_usernames_unique.
Qed.

(** Two registrations under one name, starting from [alice] alone. *)
Lemma usernames_stay_unique_witness :
  usernames_unique
    (run sample_hasher
       [register (mkRequest POST None
          (mkRegisterData (Parsed "bob") (Parsed "x") Missing));
        register (mkRequest POST None
          (mkRegisterData (Parsed "bob") (Parsed "y") (Parsed "Admin")))]
       with_alice).2.
Proof.
  apply (usernames_stay_unique sample_hasher).
  intros i j a b Hi Hj _. unfold with_alice in Hi, Hj. cbn [users] in Hi, Hj.
  apply lookup_singleton_Some in Hi as [<- _].
  apply lookup_singleton_Some in Hj as [<- _]. reflexivity.
Defined.

Lemma handle_quantities_positive mp c st :
  quantities_positive st → quantities_positive (handle mp c st).2.
Proof.
  intros Hst. handle_cases mp c st; try assumption.
  intros t Ht. cbn [tickets] in Ht.
  apply elem_of_app in Ht as [Ht | Ht%list_elem_of_singleton];
    [by apply Hst | subst t; assumption].
Qed.

(** X5: every ticket that a sequence of requests adds to a sound ledger
    has a quantity of at least one and names an event of the table:
    when all tickets are so before, all are so after. *)
Theorem tickets_stay_sound mp cs st :
  quantities_positive st → references_ok st →
  quantities_positive (run mp cs st).2 ∧ references_ok (run mp cs st).2.
Proof.
  revert st. induction cs as [|c cs IH]; intros st Hq Hr; cbn [run fst snd];
    [by split|].
  apply IH; [by apply handle_quantities_positive
            | by apply handle_references_ok].
Qed.

(** A purchase of two and a refused purchase of zero. *)
Lemma tickets_stay_sound_witness :
  quantities_positive
    (run sample_hasher [post_purchase 1 0 2; post_purchase 1 1 0]
         (one_event 5)).2 ∧
  references_ok
    (run sample_hasher [post_purchase 1 0 2; post_purchase 1 1 0]
         (one_event 5)).2.
Proof.
  apply (tickets_stay_sound sample_hasher).
  - intros t Ht. unfold one_event in Ht. cbn [tickets] in Ht.
    by apply not_elem_of_nil in Ht.
  - intros t Ht. unfold one_event in Ht. cbn [tickets] in Ht.
    by apply not_elem_of_nil in Ht.
Defined.

(** ** Listing events *)

Lemma event_json_inj r1 r2 : event_json r1 = event_json r2 → r1 = r2.
Proof.
  destruct r1 as [k1 [n1 d1 t1 s1]], r2 as [k2 [n2 d2 t2 s2]].
  unfold event_json. cbn. intros [= Hk -> -> -> ->].
  apply Nat2Z.inj in Hk as ->. reflexivity.
Qed.

Lemma handle_list mp req st :
  method req = GET →
  is_authenticated req = true →
  handle mp (events_ req) st =
    (mkResponse 200 (JList (map event_json (map_to_list (events st)))), st).
Proof.
  intros Hm Ha. unfold handle, dispatch, EventAPIView_permission_classes.
  cbn [check_permissions has_permission]. rewrite Hm, Ha. reflexivity.
Qed.

Lemma event_json_listed (t : gmap nat Event) id row :
  t !! id = Some row ↔ event_json (id, row) ∈ map event_json (map_to_list t).
Proof.
  rewrite <- elem_of_map_to_list. split.
  - intros Hin. apply list_elem_of_fmap. eauto.
  - intros (r & Heq & Hin)%list_elem_of_fmap.
    apply event_json_inj in Heq as <-. assumption.
Qed.



(** ** Who may do what *)

(** X7: no caller is admitted both to create events and to purchase: of
    a [POST events/] and a purchase request sent as the same user, at
    least one is refused by the permissions (401 or 403). *)
Theorem no_caller_creates_and_purchases mp st st'
    (create : Request EventData) id now (buy : Request PurchaseData) :
  method create = POST →
  request_user create = request_user buy →
  denied (handle mp (events_ create) st).1 ∨
  denied (handle mp (ticket_purchase id now buy) st').1.
Proof.
  intros Hm Hu. unfold handle, dispatch, denied,
    EventAPIView_permission_classes, TicketPurchaseAPIView_permission_classes.
  cbn [check_permissions has_permission].
  unfold is_authenticated, role_is. rewrite Hm, Hu.
  destruct (request_user buy) as [u|]; [| left; left; reflexivity].
  destruct (String.eqb_spec (role u.2) "Admin") as [Hadmin|Hnot].
  - right. right. rewrite Hadmin. reflexivity.
  - left. right. reflexivity.
Qed.

(** [root] creates an event and is refused the purchase. *)
Lemma no_caller_creates_and_purchases_witness :
  denied (handle sample_hasher (post_event (Parsed 5) Missing) empty_db).1 ∨
  denied (handle sample_hasher
            (ticket_purchase 1 0
               (mkRequest POST (Some root) (mkPurchaseData (Parsed 1))))
            (one_event 5)).1.
Proof.
  exact (no_caller_creates_and_purchases sample_hasher empty_db (one_event 5)
           (mkRequest POST (Some root)
              (mkEventData (Parsed "Gig") (Parsed "2025-06-01") (Parsed 5)
                           Missing))
           1%nat 0 (mkRequest POST (Some root) (mkPurchaseData (Parsed 1)))
           eq_refl eq_refl).
Defined.

(** ** Registration, in full *)

Lemma UserRegisterSerializer_is_valid_errors d st :
  (run_field "username" true
     [not_blank; max_length 150; unique_username (users st)]
     (reg_username d)).1 ++
  (run_field "password" true [not_blank] (reg_password d)).1 ++
  (run_field "role" false [choice ROLE_CHOICES] (reg_role d)).1 ≠ [] →
  UserRegisterSerializer_is_valid d st =
    (inl (ValidationError
       ((run_field "username" true
           [not_blank; max_length 150; unique_username (users st)]
           (reg_username d)).1 ++
        (run_field "password" true [not_blank] (reg_password d)).1 ++
        (run_field "role" false [choice ROLE_CHOICES] (reg_role d)).1)), st).
Proof.
  unfold UserRegisterSerializer_is_valid, bind, get_db, raise.
  destruct (_ ++ _ ++ _) as [|e errors]; [contradiction | reflexivity].
Qed.

Lemma RegisterView_create_valid mp req st v :
  register_valid (users st) (data req) v →
  RegisterView_create mp req st =
    (inr (mkResponse 200 (message "Registered successfully")),
     mkDb (<[next_id (users st) := registered mp v]> (users st))
          (events st) (tickets st)).
Proof.
  intros Hv. unfold RegisterView_create, try_except, bind.
  rewrite (UserRegisterSerializer_is_valid_complete _ v st Hv).
  destruct Hv as (_ & Hnb & _ & Hfree & _).
  unfold UserRegisterSerializer_create, UserManager_create_user,
    UserTable.save, bind, get_db, raise, ret, modify_db. cbn.
  destruct (String.eqb_spec (v_username v) EmptyString); [contradiction|].
  cbn. rewrite Hfree. reflexivity.
Qed.

(** X8: a registration under a username that an account already has is
    answered 400 with the error [unique] on [username], and writes
    nothing. *)
Theorem duplicate_username_is_refused mp req st n pk u :
  method req = POST →
  reg_username (data req) = Parsed n →
  users st !! pk = Some u →
  username u = n →
  ∃ errors,
    handle mp (register req) st =
      (mkResponse 400 (error (JErrors errors)), st) ∧
    FieldError "username" "unique" ∈ errors.
Proof.
  intros Hm Hn Hu Heq.
  assert (UserTable.exists_username n (users st) = true) as Hex.
  { apply exists_username_true. eauto. }
  eexists. split.
  - unfold handle, dispatch, RegisterView_permission_classes.
    cbn [check_permissions has_permission]. rewrite Hm.
    unfold RegisterView_create, try_except, bind.
    rewrite UserRegisterSerializer_is_valid_errors; [reflexivity|].
    rewrite Hn. cbn [run_field omap list_omap].
    unfold unique_username. rewrite Hex.
    destruct (not_blank n), (max_length 150 n); discriminate.
  - rewrite Hn. cbn [run_field omap list_omap].
    unfold unique_username. rewrite Hex.
    destruct (not_blank n), (max_length 150 n); cbn; set_solver.
Qed.

(** A second [alice]. *)
Lemma duplicate_username_is_refused_witness :
  ∃ errors,
    handle sample_hasher
      (register (mkRequest POST None
         (mkRegisterData (Parsed "alice") (Parsed "pw") Missing)))
      with_alice =
      (mkResponse 400 (error (JErrors errors)), with_alice) ∧
    FieldError "username" "unique" ∈ errors.
Proof.
  exact (duplicate_username_is_refused sample_hasher
           (mkRequest POST None
              (mkRegisterData (Parsed "alice") (Parsed "pw") Missing))
           with_alice "alice"%string 2%nat alice.2
           eq_refl eq_refl eq_refl eq_refl).
Defined.

(** X9: a [POST register/] with a non-blank username of at most 150
    bytes that no account has, a non-blank password, both without the
    NUL character, and a role that is absent or one of ['Admin'] and
    ['User'] is answered 200; one that is answered 200 had a non-blank
    username that no account had, a non-blank password and such a role;
    every other one is answered 400 and writes nothing. Username and
    password are the texts as the fields have trimmed them. *)
Theorem registration_acceptance mp req st :
  method req = POST →
  ((∃ v, register_valid (users st) (data req) v ∧
         nul_free (v_username v) = true ∧ nul_free (v_password v) = true) →
   status (handle mp (register req) st).1 = 200) ∧
  (status (handle mp (register req) st).1 = 200 →
   ∃ n p,
     reg_username (data req) = Parsed n ∧ n ≠ EmptyString ∧
     UserTable.exists_username n (users st) = false ∧
     reg_password (data req) = Parsed p ∧ p ≠ EmptyString ∧
     (reg_role (data req) = Missing ∨
      reg_role (data req) = Parsed "Admin"%string ∨
      reg_role (data req) = Parsed "User"%string)) ∧
  (status (handle mp (register req) st).1 ≠ 200 →
   status (handle mp (register req) st).1 = 400 ∧
   (handle mp (register req) st).2 = st).
Proof.
  intros Hm.
  unfold handle, dispatch, RegisterView_permission_classes.
  cbn [check_permissions has_permission]. rewrite Hm.
  destruct (RegisterView_create_outcome mp req st)
    as [(errors & Hout & Hne) | (v & Hv & Hout)]; rewrite Hout; cbn [fst snd].
  - split; [| split]; [| discriminate | intros _; by split].
    intros (v & Hv & _).
    rewrite (RegisterView_create_valid mp req st v Hv) in Hout.
    discriminate.
  - split; [| split]; [reflexivity | | intros H; by exfalso].
    intros _. destruct Hv as (Hn & Hnb & _ & Hfree & Hp & Hpb & Hrole).
    exists (v_username v), (v_password v). repeat split; try assumption.
    destruct (v_role v) as [r|]; [| by left].
    right. destruct Hrole as [-> [-> | ->]]; [by left | by right].
Qed.

(** A free name without a role is registered; a role outside the
    choices is refused. *)
Lemma registration_acceptance_witness :
  status (handle sample_hasher
            (register (mkRequest POST None
               (mkRegisterData (Parsed "eve") (Parsed "pw") Missing)))
            with_alice).1 = 200 ∧
  status (handle sample_hasher
            (register (mkRequest POST None
               (mkRegisterData (Parsed "eve") (Parsed "pw") (Parsed "Root"))))
            with_alice).1 = 400 ∧
  (handle sample_hasher
     (register (mkRequest POST None
        (mkRegisterData (Parsed "eve") (Parsed "pw") (Parsed "Root"))))
     with_alice).2 = with_alice.
Proof.
  split.
  - apply (registration_acceptance sample_hasher
             (mkRequest POST None
                (mkRegisterData (Parsed "eve") (Parsed "pw") Missing))
             with_alice eq_refl).
    exists (mkRegisterValidated "eve" "pw" None).
    split; [| split; reflexivity].
    repeat split; first [discriminate | cbn; lia | reflexivity].
  - apply (registration_acceptance sample_hasher
             (mkRequest POST None
                (mkRegisterData (Parsed "eve") (Parsed "pw") (Parsed "Root")))
             with_alice eq_refl).
    vm_compute. discriminate.
Defined.

(** X10: the account a successful registration stores is under a new key,
    carries the request's username and the hash of the request's
    password, is active, and is neither staff nor superuser -- also
    when its role is ['Admin']; events and tickets are untouched. *)
Theorem registered_account mp req st :
  status (handle mp (register req) st).1 = 200 →
  users st !! next_id (users st) = None ∧
  events (handle mp (register req) st).2 = events st ∧
  tickets (handle mp (register req) st).2 = tickets st ∧
  ∃ n p account,
    reg_username (data req) = Parsed n ∧
    reg_password (data req) = Parsed p ∧
    users (handle mp (register req) st).2 !! next_id (users st)
      = Some account ∧
    username account = n ∧ password account = mp p ∧
    is_active account = true ∧ is_staff account = false ∧
    is_superuser account = false.
Proof.
  handle_cases mp (register req) st; intros Hs; [contradiction|].
  split; [apply next_id_fresh|]. split; [reflexivity|].
  split; [reflexivity|].
  match goal with Hv : register_valid _ _ _ |- _ =>
    destruct Hv as (Hn & _ & _ & _ & Hp & _) end.
  exists (v_username v), (v_password v), (registered mp v).
  cbn [users]. rewrite lookup_insert_eq. by repeat split.
Qed.

(** An anonymous caller registers an administrator. *)
Lemma registered_account_witness :
  ∃ account,
    users (handle sample_hasher
             (register (mkRequest POST None
                (mkRegisterData (Parsed "mallory") (Parsed "s3cret")
                                (Parsed "Admin")))) empty_db).2
      !! next_id (users empty_db) = Some account ∧
    password account = sample_hasher "s3cret" ∧
    is_staff account = false ∧ is_superuser account = false.
Proof.
  destruct (registered_account sample_hasher
              (mkRequest POST None
                 (mkRegisterData (Parsed "mallory") (Parsed "s3cret")
                                 (Parsed "Admin"))) empty_db eq_refl)
    as (_ & _ & _ & n & p & account & _ & Hp & Hacc & _ & Hpw & _ & Hst & Hsu).
  exists account. injection Hp as <-. by repeat split.
Defined.

(** ** Event creation, in full *)

Lemma EventAPIView_create_valid req st v :
  event_valid (data req) v →
  EventAPIView_create req st =
    (inr (mkResponse 201 (message "Event created successfully")),
     mkDb (users st)
          (<[next_id (events st) :=
               mkEvent (v_name v) (v_date v) (v_total_tickets v)
                       (default 0 (v_tickets_sold v))]> (events st))
          (tickets st)).
Proof.
  intros Hv. unfold EventAPIView_create, bind.
  rewrite (EventSerializer_is_valid_complete _ v st Hv). reflexivity.
Qed.

Lemma check_permissions_admin_post (req : Request EventData) :
  method req = POST →
  has_permission IsAdminUser req = true →
  check_permissions EventAPIView_permission_classes req = None.
Proof.
  intros Hm Hperm. unfold has_permission in Hperm. rewrite Hm in Hperm.
  apply andb_true_iff in Hperm as [Ha Hr].
  unfold EventAPIView_permission_classes.
  cbn [check_permissions has_permission]. rewrite Hm, Ha, Hr. reflexivity.
Qed.

(** X11: an administrator's [POST events/] with a non-blank name of at
    most 255 bytes without the NUL character, a date, a [total_tickets]
    from -2147483648 to 2147483647 and a [tickets_sold] that is absent
    or in that range is answered 201. One that is answered 201 had a
    non-blank name, a date and an integer [total_tickets]; it stores
    the event with these under a key no event had, and leaves every
    other event, the accounts and the tickets as they were. Every other
    one is answered 400 and writes nothing. *)
Theorem event_creation_acceptance mp req st :
  method req = POST →
  has_permission IsAdminUser req = true →
  (∀ v, event_valid (data req) v →
     nul_free (v_name v) = true →
     safe_integer (v_total_tickets v) →
     safe_integer (default 0 (v_tickets_sold v)) →
     status (handle mp (events_ req) st).1 = 201) ∧
  (status (handle mp (events_ req) st).1 = 201 →
   ∃ row,
     events st !! next_id (events st) = None ∧
     events (handle mp (events_ req) st).2
       = <[next_id (events st) := row]> (events st) ∧
     ev_name (data req) = Parsed (name row) ∧ name row ≠ EmptyString ∧
     ev_date (data req) = Parsed (date row) ∧
     ev_total_tickets (data req) = Parsed (total_tickets row) ∧
     users (handle mp (events_ req) st).2 = users st ∧
     tickets (handle mp (events_ req) st).2 = tickets st) ∧
  (status (handle mp (events_ req) st).1 ≠ 201 →
   status (handle mp (events_ req) st).1 = 400 ∧
   (handle mp (events_ req) st).2 = st).
Proof.
  intros Hm Hperm. unfold handle, dispatch.
  rewrite (check_permissions_admin_post req Hm Hperm), Hm.
  destruct (EventAPIView_create_outcome req st)
    as [(errors & Hout & Hne & _) | (v & Hv & Hout)]; rewrite Hout;
    cbn [fst snd status].
  - split; [| split]; [| discriminate | intros _; by split].
    intros v Hv _ _ _.
    rewrite (EventAPIView_create_valid req st v Hv) in Hout. discriminate.
  - split; [| split]; [| | intros H; by exfalso].
    + intros; reflexivity.
    + intros _. eexists. split; [apply next_id_fresh|].
      split; [reflexivity|]. cbn.
      destruct Hv as (Hn & Hnb & _ & Hd & Ht & _). by repeat split.
Qed.

(** An event of five tickets is created; a blank name is refused and
    nothing is written. *)
Lemma event_creation_acceptance_witness :
  status (handle sample_hasher (post_event (Parsed 5) Missing)
            (one_event 5)).1 = 201 ∧
  status (handle sample_hasher
            (events_ (mkRequest POST (Some root)
               (mkEventData (Parsed EmptyString) (Parsed "2025-06-01")
                            (Parsed 5) Missing))) (one_event 5)).1 = 400 ∧
  (handle sample_hasher
     (events_ (mkRequest POST (Some root)
        (mkEventData (Parsed EmptyString) (Parsed "2025-06-01")
                     (Parsed 5) Missing))) (one_event 5)).2 = one_event 5.
Proof.
  split.
  - apply (proj1 (event_creation_acceptance sample_hasher
                    (mkRequest POST (Some root)
                       (mkEventData (Parsed "Gig") (Parsed "2025-06-01")
                                    (Parsed 5) Missing)) (one_event 5)
                    eq_refl eq_refl)
             (mkEventValidated "Gig" "2025-06-01" 5 None)).
    + repeat split; first [discriminate | cbn; lia | reflexivity].
    + reflexivity.
    + unfold safe_integer; cbn; lia.
    + unfold safe_integer; cbn; lia.
  - apply (event_creation_acceptance sample_hasher
             (mkRequest POST (Some root)
                (mkEventData (Parsed EmptyString) (Parsed "2025-06-01")
                             (Parsed 5) Missing)) (one_event 5)
             eq_refl eq_refl).
    vm_compute. discriminate.
Defined.

(** ** The purchase, in full *)

Lemma check_permissions_regular_post (req : Request PurchaseData) :
  has_permission IsRegularUser req = true →
  check_permissions TicketPurchaseAPIView_permission_classes req = None.
Proof.
  intros Hperm. unfold TicketPurchaseAPIView_permission_classes.
  cbn [check_permissions]. rewrite Hperm.
  cbn in Hperm. apply andb_true_iff in Hperm as [Ha _].
  cbn [has_permission]. rewrite Ha. reflexivity.
Qed.

(** X12: a purchase for an identifier that no event has is answered 404
    with the error ['Event not found.'], whatever the body of the
    request, and writes nothing. *)
Theorem purchase_of_unknown_event mp id now req st :
  method req = POST →
  has_permission IsRegularUser req = true →
  events st !! id = None →
  handle mp (ticket_purchase id now req) st =
    (mkResponse 404 (error (JStr "Event not found.")), st).
Proof.
  intros Hm Hperm Hnone. unfold handle, dispatch.
  rewrite (check_permissions_regular_post req Hperm), Hm.
  destruct (TicketPurchaseAPIView_create_outcome id now req st);
    first [reflexivity | congruence].
Qed.

(** Event 99 does not exist. *)
Lemma purchase_of_unknown_event_witness :
  handle sample_hasher (post_purchase 99 0 1) (one_event 5) =
    (mkResponse 404 (error (JStr "Event not found.")), one_event 5).
Proof.
  exact (purchase_of_unknown_event sample_hasher 99 0
           (mkRequest POST (Some alice) (mkPurchaseData (Parsed 1)))
           (one_event 5) eq_refl eq_refl eq_refl).
Defined.

(** X13: a purchase for an existing event whose quantity is absent, not
    an integer, or an integer below one is answered 400 with a single
    error, on [quantity], whatever the capacity of the event, and
    writes nothing; the error's code is [required] for an absent
    quantity and [min_value] for an integer below one. *)
Theorem purchase_with_invalid_quantity mp id now req st row :
  method req = POST →
  has_permission IsRegularUser req = true →
  events st !! id = Some row →
  (∀ q, pd_quantity (data req) = Parsed q → q < 1) →
  ∃ code,
    handle mp (ticket_purchase id now req) st =
      (mkResponse 400 (JErrors [FieldError "quantity" code]), st) ∧
    (pd_quantity (data req) = Missing → code = "required"%string) ∧
    (∀ q, pd_quantity (data req) = Parsed q → code = "min_value"%string).
Proof.
  intros Hm Hperm Hrow Hq. unfold handle, dispatch.
  rewrite (check_permissions_regular_post req Hperm), Hm.
  destruct (TicketPurchaseAPIView_create_outcome id now req st)
    as [Hnone | row' errors Hrow' Herr Hne | row' q' Hrow' Hq' Hq1 _
        | row' q' Hrow' Hq' Hq1 _ _ | row' q' u Hrow' Hq' Hq1 _ _];
    try congruence; try (specialize (Hq _ Hq'); lia).
  subst errors. destruct (pd_quantity (data req)) as [| |q] eqn:E.
  - exists "required"%string.
    split; [reflexivity | split; [done | discriminate]].
  - exists "invalid"%string.
    split; [reflexivity | split; discriminate].
  - exists "min_value"%string. specialize (Hq q eq_refl).
    cbn. unfold min_value. destruct (Z.ltb_spec q 1); [| lia].
    split; [reflexivity | split; [discriminate | done]].
Qed.

(** A quantity of zero. *)
Lemma purchase_with_invalid_quantity_witness :
  ∃ code,
    handle sample_hasher (post_purchase 1 0 0) (one_event 5) =
      (mkResponse 400 (JErrors [FieldError "quantity" code]), one_event 5) ∧
    code = "min_value"%string.
Proof.
  destruct (purchase_with_invalid_quantity sample_hasher 1 0
              (mkRequest POST (Some alice) (mkPurchaseData (Parsed 0)))
              (one_event 5) (mkEvent "Gig" "2025-06-01" 5 0)
              eq_refl eq_refl eq_refl) as (code & Hresp & _ & Hcode).
  - intros q [= <-]. lia.
  - exists code. split; [exact Hresp | exact (Hcode 0 eq_refl)].
Defined.

(** X14: a [POST] purchase by a regular user is answered 201 only when
    the event exists, the quantity is an integer of at least one, and
    [tickets_sold + quantity <= total_tickets] holds of the stored
    event; and when these hold of an event with [0 <= tickets_sold] and
    [total_tickets <= 1073741823], whose counter therefore stays in
    every database column, it is answered 201. *)
Theorem purchase_acceptance mp id now req st :
  method req = POST →
  has_permission IsRegularUser req = true →
  (status (handle mp (ticket_purchase id now req) st).1 = 201 →
   ∃ row q,
     events st !! id = Some row ∧ pd_quantity (data req) = Parsed q ∧
     1 ≤ q ∧ tickets_sold row + q ≤ total_tickets row) ∧
  (∀ row q,
     events st !! id = Some row → pd_quantity (data req) = Parsed q →
     1 ≤ q → tickets_sold row + q ≤ total_tickets row →
     0 ≤ tickets_sold row → total_tickets row ≤ 1073741823 →
     status (handle mp (ticket_purchase id now req) st).1 = 201).
Proof.
  intros Hm Hperm. split.
  - handle_cases mp (ticket_purchase id now req) st; intros Hs;
      [contradiction|]. eauto 10.
  - intros row q Hrow Hq Hq1 Hle _ _.
    pose proof Hperm as Hperm'. cbn in Hperm'.
    apply andb_true_iff in Hperm' as [Ha Hr].
    unfold is_authenticated in Ha. unfold role_is in Hr.
    destruct (request_user req) as [u|] eqn:Hu; [| discriminate].
    apply String.eqb_eq in Hr.
    rewrite (purchase_accepted mp id now req st row q u) by assumption.
    reflexivity.
Qed.

(** Two of five tickets are granted. *)
Lemma purchase_acceptance_witness :
  status (handle sample_hasher (post_purchase 1 0 2) (one_event 5)).1 = 201.
Proof.
  apply (proj2 (purchase_acceptance sample_hasher 1 0
                  (mkRequest POST (Some alice) (mkPurchaseData (Parsed 2)))
                  (one_event 5) eq_refl eq_refl)
           (mkEvent "Gig" "2025-06-01" 5 0) 2); cbn; try reflexivity; lia.
Defined.

(** X15: a purchase answered 201 echoes the requested quantity, appends
    exactly one ticket -- the caller's key, the event's key, the
    requested quantity, the time of the request -- and touches nothing
    but the [tickets_sold] of the purchased event: its name, date and
    [total_tickets], every other event and every account stay as they
    were. *)
Theorem purchase_writes_one_ticket mp id now req st :
  status (handle mp (ticket_purchase id now req) st).1 = 201 →
  ∃ u q row row',
    request_user req = Some u ∧ pd_quantity (data req) = Parsed q ∧
    body (handle mp (ticket_purchase id now req) st).1 =
      JObj [("message", JStr "Ticket purchased successfully");
            ("ticket", JObj [("quantity", JInt q)])] ∧
    tickets (handle mp (ticket_purchase id now req) st).2
      = tickets st ++ [mkTicket u.1 id q now] ∧
    users (handle mp (ticket_purchase id now req) st).2 = users st ∧
    events st !! id = Some row ∧
    events (handle mp (ticket_purchase id now req) st).2 !! id = Some row' ∧
    name row' = name row ∧ date row' = date row ∧
    total_tickets row' = total_tickets row ∧
    ∀ k, k ≠ id →
      events (handle mp (ticket_purchase id now req) st).2 !! k
        = events st !! k.
Proof.
  handle_cases mp (ticket_purchase id now req) st; intros Hs;
    [contradiction|].
  exists u, q, row, (purchased q row). cbn [body tickets users events].
  rewrite lookup_insert_eq. repeat split; try assumption.
  intros k Hk. by rewrite lookup_insert_ne.
Qed.

(** [alice] buys two tickets at time 7. *)
Lemma purchase_writes_one_ticket_witness :
  ∃ u q,
    request_user (mkRequest POST (Some alice) (mkPurchaseData (Parsed 2)))
      = Some u ∧
    tickets (handle sample_hasher (post_purchase 1 7 2) (one_event 5)).2
      = tickets (one_event 5) ++ [mkTicket u.1 1 q 7].
Proof.
  destruct (purchase_writes_one_ticket sample_hasher 1 7
              (mkRequest POST (Some alice) (mkPurchaseData (Parsed 2)))
              (one_event 5) eq_refl)
    as (u & q & _ & _ & Hu & _ & _ & Ht & _).
  exists u, q. split; [exact Hu | exact Ht].
Defined.

(** ** Superusers *)

(** X16: [create_superuser] with a non-empty username that no account
    has stores exactly one new account, under a new key: role ['Admin'],
    active, staff and superuser, with the hash of the password; every
    other account, the events and the tickets stay as they were, and
    the account is admitted to [POST events/]. *)
Theorem create_superuser_stores_admin mp uname pw st :
  uname ≠ EmptyString →
  UserTable.exists_username uname (users st) = false →
  let account := mkUser uname (mp pw) "Admin" true true true in
  UserManager_create_superuser mp uname pw st =
    (inr (next_id (users st), account),
     mkDb (<[next_id (users st) := account]> (users st))
          (events st) (tickets st)) ∧
  users st !! next_id (users st) = None ∧
  ∀ d : EventData,
    check_permissions EventAPIView_permission_classes
      (mkRequest POST (Some (next_id (users st), account)) d) = None.
Proof.
  intros Hne Hfree account. split; [| split; [apply next_id_fresh | done]].
  unfold UserManager_create_superuser, UserManager_create_user,
    UserTable.save, User_save, bind, get_db, modify_db, ret, raise.
  destruct (String.eqb_spec uname EmptyString); [contradiction|].
  cbn [username]. rewrite Hfree. cbn.
  unfold set_users. cbn. rewrite insert_insert_eq. reflexivity.
Qed.

(** The first superuser of an empty database. *)
Lemma create_superuser_stores_admin_witness :
  UserManager_create_superuser sample_hasher "root" "r00t" empty_db =
    (inr (1%nat,
          mkUser "root" (sample_hasher "r00t") "Admin" true true true),
     mkDb {[ 1%nat :=
               mkUser "root" (sample_hasher "r00t") "Admin" true true true ]}
          ∅ []).
Proof.
  exact (proj1 (create_superuser_stores_admin sample_hasher "root" "r00t"
                  empty_db ltac:(discriminate) eq_refl)).
Defined.

(** X17: [create_user] and [create_superuser] raise [ValueError] for the
    empty username and [IntegrityError] for a username that an account
    has, and write nothing in either case, whatever role is asked. *)
Theorem create_user_refusals mp uname pw urole st :
  uname = EmptyString ∨ UserTable.exists_username uname (users st) = true →
  let e := if String.eqb uname EmptyString
           then ValueError "Users must have a username"
           else IntegrityError in
  UserManager_create_user mp uname pw urole st = (inl e, st) ∧
  UserManager_create_superuser mp uname pw st = (inl e, st).
Proof.
  intros H e. subst e.
  unfold UserManager_create_superuser, UserManager_create_user,
    UserTable.save, bind, get_db, raise.
  destruct (String.eqb_spec uname EmptyString) as [->|Hne]; [by split|].
  destruct H as [? | Hex]; [contradiction|].
  cbn [username]. rewrite Hex. by split.
Qed.

(** A second [alice], as a superuser. *)
Lemma create_user_refusals_witness :
  UserManager_create_superuser sample_hasher "alice" "pw" with_alice
    = (inl IntegrityError, with_alice).
Proof.
  exact (proj2 (create_user_refusals sample_hasher "alice" "pw" "Admin"
                  with_alice (or_intror eq_refl))).
Defined.

(** ** Login *)

Lemma run_field_not_blank f (r : raw string) :
  match run_field f true [not_blank] r with
  | ([], Some p) => r = Parsed p ∧ p ≠ EmptyString
  | ([], None) => False
  | (_ :: _, _) => ∀ p, r = Parsed p → p = EmptyString
  end.
Proof.
  destruct r as [| |p]; cbn [run_field omap list_omap]; try discriminate.
  unfold not_blank. destruct (String.eqb_spec p EmptyString); cbn.
  - intros ? [= <-]. assumption.
  - by split.
Qed.

Section LoginProperties.
Variable authenticate : string → string → M (option (nat * User)).
Variable for_user : nat * User → M (string * string).

(** X18: a login is answered 200 only when both fields are non-blank
    texts, [authenticate] returned an account for them, and that account
    is active; the tokens in the answer are the ones [for_user] issued
    for that very account. *)
Theorem login_issues_tokens_only_for_active_accounts req st :
  status (login authenticate for_user req st).1 = 200 →
  ∃ n p u st1 tokens,
    login_username (data req) = Parsed n ∧ n ≠ EmptyString ∧
    login_password (data req) = Parsed p ∧ p ≠ EmptyString ∧
    authenticate n p st = (inr (Some u), st1) ∧
    is_active u.2 = true ∧
    for_user u st1 = (inr tokens, (login authenticate for_user req st).2) ∧
    body (login authenticate for_user req st).1 =
      JObj [("message", JStr "Login successful");
            ("refresh", JStr tokens.1); ("access", JStr tokens.2)].
Proof.
  unfold login, dispatch, LoginView_permission_classes.
  cbn [check_permissions has_permission].
  destruct (method req); try (cbn; discriminate).
  unfold LoginView_post, try_except, bind, UserLoginSerializer_is_valid.
  pose proof (run_field_not_blank "username" (login_username (data req))) as Hu.
  pose proof (run_field_not_blank "password" (login_password (data req))) as Hp.
  destruct (run_field "username" _ _ _) as [eu ou].
  destruct (run_field "password" _ _ _) as [ep op]. cbn [fst snd].
  destruct eu as [|? eu]; cbn [app]; [| cbn; discriminate].
  destruct ou as [n|]; [| contradiction]. destruct Hu as [Hn Hnb].
  destruct ep as [|? ep]; [| cbn; discriminate].
  destruct op as [p|]; [| contradiction]. destruct Hp as [Hp Hpb].
  unfold UserLoginSerializer_validate, bind, raise, ret.
  destruct (String.eqb_spec n EmptyString); [contradiction|].
  destruct (String.eqb_spec p EmptyString); [contradiction|]. cbn [orb].
  destruct (authenticate n p st) as [[e|[u|]] st1] eqn:Hauth;
    try (destruct e; cbn; discriminate); try (cbn; discriminate).
  destruct (is_active u.2) eqn:Hact; cbn [negb]; [| cbn; discriminate].
  destruct (for_user u st1) as [[e|tokens] st2] eqn:Hfor;
    [destruct e; cbn; discriminate|].
  cbn. intros _. exists n, p, u, st1, tokens. by repeat split.
Qed.

(** X19: a login whose username or password is absent, not a text, or
    blank is answered 400 before [authenticate] is consulted: the
    database is the one the request found, whatever [authenticate] and
    [for_user] would do. *)
Theorem login_without_credentials req st :
  method req = POST →
  (∀ n, login_username (data req) = Parsed n → n = EmptyString) ∨
  (∀ p, login_password (data req) = Parsed p → p = EmptyString) →
  status (login authenticate for_user req st).1 = 400 ∧
  (login authenticate for_user req st).2 = st.
Proof.
  intros Hm Hbad. unfold login, dispatch, LoginView_permission_classes.
  cbn [check_permissions has_permission]. rewrite Hm.
  unfold LoginView_post, try_except, bind, UserLoginSerializer_is_valid.
  pose proof (run_field_not_blank "username" (login_username (data req))) as Hu.
  pose proof (run_field_not_blank "password" (login_password (data req))) as Hp.
  destruct (run_field "username" _ _ _) as [eu ou].
  destruct (run_field "password" _ _ _) as [ep op]. cbn [fst snd].
  destruct eu as [|? eu]; cbn [app]; [| by split].
  destruct ou as [n|]; [| contradiction]. destruct Hu as [Hn Hnb].
  destruct ep as [|? ep]; [| by split].
  destruct op as [p|]; [| contradiction]. destruct Hp as [Hp Hpb].
  exfalso. destruct Hbad as [H | H]; [apply Hnb | apply Hpb]; by apply H.
Qed.

(** X20: when [authenticate] returns no account the login is answered 400
    with ['Invalid credentials'], and when it returns an account that is
    not active, with ['User account is disabled']; in both cases no
    token is issued: the database is as [authenticate] left it. *)
Theorem login_refusals req st n p st1 found :
  method req = POST →
  login_username (data req) = Parsed n → n ≠ EmptyString →
  login_password (data req) = Parsed p → p ≠ EmptyString →
  authenticate n p st = (inr found, st1) →
  match found with Some u => is_active u.2 = false | None => True end →
  login authenticate for_user req st =
    (mkResponse 400
       (error (JErrors
          [NonFieldError match found with
                         | Some _ => "User account is disabled"
                         | None => "Invalid credentials"
                         end])), st1).
Proof.
  intros Hm Hn Hnb Hp Hpb Hauth Hfound.
  unfold login, dispatch, LoginView_permission_classes.
  cbn [check_permissions has_permission]. rewrite Hm.
  unfold LoginView_post, try_except, bind, UserLoginSerializer_is_valid.
  rewrite Hn, Hp. cbn [run_field omap list_omap]. unfold not_blank.
  destruct (String.eqb_spec n EmptyString); [contradiction|].
  destruct (String.eqb_spec p EmptyString); [contradiction|].
  cbn [fst snd app]. unfold UserLoginSerializer_validate, bind, raise, ret.
  destruct (String.eqb_spec n EmptyString); [contradiction|].
  destruct (String.eqb_spec p EmptyString); [contradiction|]. cbn [orb].
  rewrite Hauth. destruct found as [u|]; [| reflexivity].
  rewrite Hfound. reflexivity.
Qed.

End LoginProperties.

(** [alice] logs in with her password. *)
Lemma login_issues_tokens_only_for_active_accounts_witness :
  ∃ u tokens,
    sample_authenticate "alice" "wonder" with_alice
      = (inr (Some u), with_alice) ∧
    is_active u.2 = true ∧
    sample_for_user u with_alice = (inr tokens, with_alice) ∧
    tokens = ("refresh.alice", "access.alice")%string.
Proof.
  destruct (login_issues_tokens_only_for_active_accounts
              sample_authenticate sample_for_user
              (mkRequest POST None
                 (mkLoginData (Parsed "alice") (Parsed "wonder")))
              with_alice eq_refl)
    as (n & p & u & st1 & tokens & Hn & _ & Hp & _ & Hauth & Hact & Hfor
        & Hbody).
  injection Hn as <-. injection Hp as <-.
  assert (st1 = with_alice) as -> by (by injection Hauth).
  exists u, tokens. repeat split; try assumption.
  assert (u = alice) as -> by (vm_compute in Hauth; by injection Hauth).
  injection Hfor as <-. reflexivity.
Defined.

(** A login without a password. *)
Lemma login_without_credentials_witness :
  status (login sample_authenticate sample_for_user
            (mkRequest POST None (mkLoginData (Parsed "alice") Missing))
            with_alice).1 = 400 ∧
  (login sample_authenticate sample_for_user
     (mkRequest POST None (mkLoginData (Parsed "alice") Missing))
     with_alice).2 = with_alice.
Proof.
  apply (login_without_credentials sample_authenticate sample_for_user
           (mkRequest POST None (mkLoginData (Parsed "alice") Missing))
           with_alice eq_refl).
  right. intros p Hp. discriminate Hp.
Defined.

(** A wrong password, and the right password of a disabled account. *)
Lemma login_refusals_witness :
  login sample_authenticate sample_for_user
    (mkRequest POST None (mkLoginData (Parsed "alice") (Parsed "guess")))
    with_alice =
    (mkResponse 400 (error (JErrors [NonFieldError "Invalid credentials"])),
     with_alice) ∧
  login sample_authenticate sample_for_user
    (mkRequest POST None (mkLoginData (Parsed "alice") (Parsed "wonder")))
    with_alice_disabled =
    (mkResponse 400
       (error (JErrors [NonFieldError "User account is disabled"])),
     with_alice_disabled).
Proof.
  split.
  - exact (login_refusals sample_authenticate sample_for_user
             (mkRequest POST None
                (mkLoginData (Parsed "alice") (Parsed "guess")))
             with_alice "alice" "guess" with_alice None
             eq_refl eq_refl ltac:(discriminate) eq_refl ltac:(discriminate)
             eq_refl I).
  - exact (login_refusals sample_authenticate sample_for_user
             (mkRequest POST None
                (mkLoginData (Parsed "alice") (Parsed "wonder")))
             with_alice_disabled "alice" "wonder" with_alice_disabled
             (Some (2%nat, mkUser "alice" (sample_hasher "wonder") "User"
                                  false false false))
             eq_refl eq_refl ltac:(discriminate) eq_refl ltac:(discriminate)
             eq_refl eq_refl).
Defined.

(** ** Requests in sequence *)

(** X21: an event created from a request without [tickets_sold] and with
    a [total_tickets = T] that every database column holds refuses a
    first purchase of more than [T] with ['Only T tickets left.'] and
    writes nothing; a first purchase that is granted is of at most [T];
    and, when [T <= 1073741823], so that the counter, which grows by
    twice the quantity, stays in every database column, a first purchase
    of any quantity from one to [T] is granted. *)
Theorem first_purchase_of_created_event mp create st now buy q T :
  status (handle mp (events_ create) st).1 = 201 →
  ev_tickets_sold (data create) = Missing →
  ev_total_tickets (data create) = Parsed T →
  method buy = POST →
  has_permission IsRegularUser buy = true →
  pd_quantity (data buy) = Parsed q →
  safe_integer T →
  1 ≤ q →
  (status (handle mp (ticket_purchase (next_id (events st)) now buy)
             (handle mp (events_ create) st).2).1 = 201 → q ≤ T) ∧
  (q ≤ T → T ≤ 1073741823 →
   status (handle mp (ticket_purchase (next_id (events st)) now buy)
             (handle mp (events_ create) st).2).1 = 201) ∧
  (T < q →
   handle mp (ticket_purchase (next_id (events st)) now buy)
     (handle mp (events_ create) st).2 =
     (mkResponse 400
        (JErrors [NonFieldError ("Only " +:+ str T +:+ " tickets left.")]),
      (handle mp (events_ create) st).2)).
Proof.
  intros Hs Hsold Htotal Hm Hperm Hq _ Hq1.
  pose proof Hperm as Hperm'. cbn in Hperm'.
  apply andb_true_iff in Hperm' as [Ha Hr].
  unfold is_authenticated in Ha. unfold role_is in Hr.
  destruct (request_user buy) as [u|] eqn:Hu; [| discriminate].
  apply String.eqb_eq in Hr.
  handle_cases mp (events_ create) st; [contradiction|].
  match goal with Hv : event_valid _ _ |- _ =>
    destruct Hv as (_ & _ & _ & _ & Ht & Hts) end.
  rewrite Htotal in Ht. injection Ht as Ht.
  destruct (v_tickets_sold v) as [s|]; [rewrite Hsold in Hts; discriminate|].
  cbn [default] in *.
  set (row := mkEvent (v_name v) (v_date v) (v_total_tickets v) 0).
  set (st1 := mkDb _ _ _).
  assert (events st1 !! next_id (events st) = Some row) as Hrow
    by apply lookup_insert_eq.
  split; [intros Hok | split; [intros Hcmp _ | intros Hcmp]].
  - destruct (Z_le_gt_dec q T) as [Hle | Hgt]; [exact Hle | exfalso].
    rewrite (insufficient_capacity_refused mp _ now buy st1 row q u) in Hok
      by (first [assumption | cbn; lia]).
    discriminate Hok.
  - rewrite (purchase_accepted mp _ now buy st1 row q u)
      by (first [assumption | cbn; lia]).
    reflexivity.
  - rewrite (insufficient_capacity_refused mp _ now buy st1 row q u)
      by (first [assumption | cbn; lia]).
    unfold tickets_left_message. cbn [row total_tickets tickets_sold].
    rewrite Z.sub_0_r, <- Ht. reflexivity.
Qed.

(** An event of three tickets: a purchase of two is granted, one of
    four is refused. *)
Lemma first_purchase_of_created_event_witness :
  status (handle sample_hasher (post_purchase 1 0 2)
            (handle sample_hasher (post_event (Parsed 3) Missing)
               empty_db).2).1 = 201 ∧
  handle sample_hasher (post_purchase 1 0 4)
    (handle sample_hasher (post_event (Parsed 3) Missing) empty_db).2 =
    (mkResponse 400 (JErrors [NonFieldError "Only 3 tickets left."]),
     (handle sample_hasher (post_event (Parsed 3) Missing) empty_db).2).
Proof.
  split.
  - apply (first_purchase_of_created_event sample_hasher
             (mkRequest POST (Some root)
                (mkEventData (Parsed "Gig") (Parsed "2025-06-01") (Parsed 3)
                             Missing))
             empty_db 0
             (mkRequest POST (Some alice) (mkPurchaseData (Parsed 2)))
             2 3 eq_refl eq_refl eq_refl eq_refl eq_refl eq_refl);
      unfold safe_integer; lia.
  - apply (first_purchase_of_created_event sample_hasher
             (mkRequest POST (Some root)
                (mkEventData (Parsed "Gig") (Parsed "2025-06-01") (Parsed 3)
                             Missing))
             empty_db 0
             (mkRequest POST (Some alice) (mkPurchaseData (Parsed 4)))
             4 3 eq_refl eq_refl eq_refl eq_refl eq_refl eq_refl);
      unfold safe_integer; lia.
Defined.

(** X22: after a successful creation, a listing by any authenticated
    caller holds the entry of the new event, with the name, date and
    [total_tickets] of the request, beside the entries of all events
    that were there before. *)
Theorem created_event_is_listed mp create st viewer :
  status (handle mp (events_ create) st).1 = 201 →
  method viewer = GET →
  is_authenticated viewer = true →
  ∃ n d T items,
    ev_name (data create) = Parsed n ∧ ev_date (data create) = Parsed d ∧
    ev_total_tickets (data create) = Parsed T ∧
    (handle mp (events_ viewer) (handle mp (events_ create) st).2).1 =
      mkResponse 200 (JList items) ∧
    event_json (next_id (events st),
                mkEvent n d T (requested_sold (data create))) ∈ items ∧
    ∀ id row, events st !! id = Some row → event_json (id, row) ∈ items.
Proof.
  intros Hs Hm Ha. rewrite (handle_list mp viewer _ Hm Ha). cbn [fst].
  handle_cases mp (events_ create) st; [contradiction|].
  match goal with Hv : event_valid _ _ |- _ =>
    pose proof (event_valid_requested_sold _ _ Hv) as Hsold;
    destruct Hv as (Hn & _ & _ & Hd & Ht & _) end.
  exists (v_name v), (v_date v), (v_total_tickets v). eexists.
  repeat split; try assumption; cbn [events].
  - apply event_json_listed. rewrite <- Hsold. apply lookup_insert_eq.
  - intros id row Hrow. apply event_json_listed.
    rewrite lookup_insert_ne by (symmetry; by eapply next_id_other).
    assumption.
Qed.

(** [alice] finds the second event beside the first. *)
Lemma created_event_is_listed_witness :
  ∃ items,
    (handle sample_hasher
       (events_ (mkRequest GET (Some alice)
                   (mkEventData Missing Missing Missing Missing)))
       (handle sample_hasher (post_event (Parsed 9) Missing)
               (one_event 5)).2).1 = mkResponse 200 (JList items) ∧
    event_json (2%nat, mkEvent "Gig" "2025-06-01" 9 0) ∈ items ∧
    event_json (1%nat, mkEvent "Gig" "2025-06-01" 5 0) ∈ items.
Proof.
  destruct (created_event_is_listed sample_hasher
              (mkRequest POST (Some root)
                 (mkEventData (Parsed "Gig") (Parsed "2025-06-01") (Parsed 9)
                              Missing))
              (one_event 5)
              (mkRequest GET (Some alice)
                 (mkEventData Missing Missing Missing Missing))
              eq_refl eq_refl eq_refl)
    as (n & d & T & items & Hn & Hd & HT & Hresp & Hnew & Hold).
  injection Hn as <-. injection Hd as <-. injection HT as <-.
  exists items. split; [exact Hresp|]. split; [exact Hnew|].
  apply Hold. reflexivity.
Defined.

(** ** Who can write *)

Lemma created_by_admin mp req st :
  status (handle mp (events_ req) st).1 = 201 →
  method req = POST ∧
  ∃ u, request_user req = Some u ∧ role u.2 = "Admin"%string.
Proof.
  unfold handle, dispatch, EventAPIView_permission_classes.
  cbn [check_permissions has_permission]. unfold is_authenticated, role_is.
  destruct (request_user req) as [u|]; [| cbn; discriminate].
  destruct (method req) eqn:Hm; cbn [fst snd]; try (cbn; discriminate).
  destruct (String.eqb_spec (role u.2) "Admin") as [Hr|Hr];
    [| cbn; discriminate].
  intros _. eauto.
Qed.

(** X23: only an administrator's [POST events/] adds an event, only a
    regular user's purchase adds a ticket, and only a registration
    changes the accounts: a request that leaves a new event key, a
    different ledger or different accounts is of that kind. *)
Theorem writes_need_the_role mp c st :
  (∀ id, events st !! id = None →
     is_Some (events (handle mp c st).2 !! id) →
     ∃ req u, c = events_ req ∧ method req = POST ∧
       request_user req = Some u ∧ role u.2 = "Admin"%string) ∧
  (tickets (handle mp c st).2 ≠ tickets st →
     ∃ id now req u, c = ticket_purchase id now req ∧ method req = POST ∧
       request_user req = Some u ∧ role u.2 = "User"%string) ∧
  (users (handle mp c st).2 ≠ users st → ∃ req, c = register req).
Proof.
  split; [| split].
  - intros id Hnone Hsome.
    assert (∀ req, c = events_ req →
              status (handle mp c st).1 = 201 →
              ∃ req u, c = events_ req ∧ method req = POST ∧
                request_user req = Some u ∧ role u.2 = "Admin"%string)
      as Hadmin.
    { intros req -> Hs.
      destruct (created_by_admin mp req st Hs) as (Hm & u & Hu & Hr).
      eauto 10. }
    handle_cases mp c st; cbn [events] in Hsome.
    + rewrite Hnone in Hsome. by destruct Hsome.
    + rewrite Hnone in Hsome. by destruct Hsome.
    + by apply (Hadmin req).
    + exfalso. destruct (decide (id = id0)) as [->|Hne].
      * congruence.
      * rewrite lookup_insert_ne in Hsome by done.
        rewrite Hnone in Hsome. by destruct Hsome.
  - handle_cases mp c st; cbn [tickets]; intros Hdiff;
      try contradiction. eauto 10.
  - handle_cases mp c st; cbn [users]; intros Hdiff;
      try contradiction. eauto.
Qed.

(** The purchase that wrote a ticket was [alice]'s. *)
Lemma writes_need_the_role_witness :
  ∃ id now req u,
    post_purchase 1 0 2 = ticket_purchase id now req ∧ method req = POST ∧
    request_user req = Some u ∧ role u.2 = "User"%string.
Proof.
  apply (proj1 (proj2 (writes_need_the_role sample_hasher
                         (post_purchase 1 0 2) (one_event 5)))).
  vm_compute. discriminate.
Defined.
